(** * LoRA / DoRA adapter layer and graph rewrite of [gemma/lora.py]

    A shallow embedding of [LinearWithLoRA] (forward composition, merge,
    DoRA transform, quantized-weight reconstruction), of [switch_to_lora]
    and of [get_parent_model].

    Conventions of the embedding.
    - A tensor is a list of rows over a scalar type [T] with the operations
      of the class [Scalar]; rounding and autograd are not modelled, and the
      dtype of a tensor only where the constructor depends on it (line 36).
      The instance on [Z] runs the code on integer-valued tensors, at
      values where every operation used is exact (its division and square
      root are the floor operations); the instance on [R] is the
      real-number idealisation used for the norm identities. A division by
      zero of tensors (NaN in torch) has no counterpart here.
    - [keepdim=True] columns of shape [[n,1]] and vectors of shape [[n]] are
      both lists; the broadcasts the code uses are written out
      ([scale_rows], [div_rows], [mul_rows]).
    - Shape errors raised by torch are not modelled: the list operations
      truncate, and a statement that [forward] or [merge_lora] returns a
      value speaks about tensors of matching shapes. The constructor builds
      tensors of the requested shapes.
    - Python attributes that may be absent ([weight_a], [weight_b] and the
      scalers) are [option] fields; reading or deleting an absent one raises
      [AttributeError].
    - [forward] and [merge_lora] mutate [self]; they are written in a state
      and exception monad over the layer, and a local name bound to a tensor
      records whether it is the stored parameter object itself or a
      temporary. *)

From Stdlib Require Import List ZArith Bool String Lia Reals Lra.
Import ListNotations.

Set Implicit Arguments.

(** ** Scalars and tensors *)

Class Scalar (T : Type) := {
  tzero : T;
  tadd : T -> T -> T;
  tmul : T -> T -> T;
  tdiv : T -> T -> T;
  tsqrt : T -> T;
  tint : Z -> T
}.

Definition Vector (T : Type) := list T.
Definition Matrix (T : Type) := list (list T).

Fixpoint zip_with {A B C : Type} (f : A -> B -> C) (xs : list A) (ys : list B) : list C :=
  match xs, ys with
  | x :: xs', y :: ys' => f x y :: zip_with f xs' ys'
  | _, _ => []
  end.

Section Tensors.
Context {T : Type} `{Scalar T}.

(** [torch.empty], [torch.Tensor(n)] and [nn.init.normal_] fill a tensor of
      the requested shape with contents the program does not control: the
      contents are a function of the index. *)
Definition mk_vector (n : nat) (f : nat -> T) : Vector T := map f (seq 0 n).
Definition mk_matrix (r c : nat) (f : nat -> nat -> T) : Matrix T :=
    map (fun i => mk_vector c (f i)) (seq 0 r).

(** [torch.zeros((r, c))] *)
Definition zeros (r c : nat) : Matrix T := mk_matrix r c (fun _ _ => tzero).

Definition sum (v : Vector T) : T := fold_right tadd tzero v.
Definition dot (u v : Vector T) : T := sum (zip_with tmul u v).

(** [t.norm(p=2, dim=1, keepdim=True)] *)
Definition norm2 (v : Vector T) : T := tsqrt (sum (map (fun a => tmul a a) v)).
Definition row_norms (w : Matrix T) : Vector T := map norm2 w.

(** [a + b] on equal shapes, [c * a] for a Python float [c] *)
Definition madd (a b : Matrix T) : Matrix T := zip_with (zip_with tadd) a b.
Definition smul (c : T) (a : Matrix T) : Matrix T := map (map (tmul c)) a.

(** [w * s.unsqueeze(-1)]: row [i] of [w] times [s[i]] *)
Definition scale_rows (w : Matrix T) (s : Vector T) : Matrix T :=
    zip_with (fun row si => map (fun a => tmul a si) row) w s.
(** [w / d] with [d] of shape [[n,1]] *)
Definition div_rows (w : Matrix T) (d : Vector T) : Matrix T :=
    zip_with (fun row di => map (fun a => tdiv a di) row) w d.
(** [m * w] with [m] of shape [[n,1]] *)
Definition mul_rows (m : Vector T) (w : Matrix T) : Matrix T :=
    zip_with (fun mi row => map (tmul mi) row) m w.

Definition ncols (a : Matrix T) : nat :=
    match a with [] => 0 | r :: _ => List.length r end.
Definition col (j : nat) (a : Matrix T) : Vector T := map (fun r => nth j r tzero) a.
Definition transpose (a : Matrix T) : Matrix T := map (fun j => col j a) (seq 0 (ncols a)).

(** [F.linear(x, w)] is [x @ w.T]: entry [(i,j)] is the dot product of row
      [i] of [x] with row [j] of [w]. *)
Definition linear (x w : Matrix T) : Matrix T :=
    map (fun xr => map (fun wr => dot xr wr) w) x.
(** [torch.matmul(b, a)] *)
Definition matmul (b a : Matrix T) : Matrix T := linear b (transpose a).

(** Entry [(i,j)] of a matrix. *)
Definition entry (w : Matrix T) (i j : nat) : T := nth j (nth i w []) tzero.
End Tensors.

(** ** Exceptions *)

Inductive Exn := AttributeError | ZeroDivisionError | RuntimeError.

Inductive Result (A : Type) :=
| Ok (a : A)
| Raise (e : Exn).
Arguments Ok {A} a.
Arguments Raise {A} e.

(** ** The base layer *)

(** Modelled from the spec: the class [Linear] of [gemma.model], which
    [lora.py] imports and subclasses, is not part of the sources. The spec
    gives its fields ([in_features], [out_features], the quantization flag,
    the frozen weight of shape [[out_features, in_features]], and the
    per-output-channel [weight_scaler], present iff quantized). *)
Record Linear (T : Type) := mkLinear {
  in_features : nat;
  out_features : nat;
  quant : bool;
  weight : Matrix T;
  weight_scaler : option (Vector T)
}.

(** Contents of freshly allocated or randomly initialised storage, one
    record per constructor call. *)
Record Fresh (T : Type) := mkFresh {
  empty_weight : nat -> nat -> T;
  empty_weight_scaler : nat -> T;
  normal_weight_a : nat -> nat -> T;
  empty_weight_a_scaler : nat -> T;
  empty_weight_b_scaler : nat -> T
}.

Section BaseLayer.
Context {T : Type} `{Scalar T}.

(** Modelled from the spec: [Linear.__init__(in_features, out_features,
      quant)] allocates the frozen weight and, when quantized, its scaler. *)
Definition Linear_init (inf outf : nat) (q : bool) (u : Fresh T) : Linear T :=
    {| in_features := inf;
       out_features := outf;
       quant := q;
       weight := mk_matrix outf inf (empty_weight u);
       weight_scaler := if q then Some (mk_vector outf (empty_weight_scaler u)) else None |}.

(** Modelled from the spec: [Linear.forward], the affine projection with
      the effective weight [weight * scaler] (channel-wise) when quantized. *)
Definition Linear_forward (b : Linear T) (x : Matrix T) : Matrix T :=
    let w := if quant b
             then match weight_scaler b with
                  | Some s => scale_rows (weight b) s
                  | None => weight b
                  end
             else weight b in
    linear x w.
End BaseLayer.

(** ** LinearWithLoRA *)

(** [class LinearWithLoRA(Linear)]: the fields of the base class plus the
    adapter's. The attribute [quant] set again by the subclass is the base
    class's. *)
Record Layer (T : Type) := mkLayer {
  super :> Linear T;
  lora_rank : Z;
  lora_scaler : T;
  weight_a : option (Matrix T);
  weight_b : option (Matrix T);
  weight_a_scaler : option (Vector T);
  weight_b_scaler : option (Vector T);
  m : Vector T;
  dora : bool
}.

Section Setters.
Context {T : Type}.

Definition set_weight (w : Matrix T) (l : Layer T) : Layer T :=
    mkLayer (mkLinear (in_features l) (out_features l) (quant l) w (weight_scaler l))
            (lora_rank l) (lora_scaler l) (weight_a l) (weight_b l)
            (weight_a_scaler l) (weight_b_scaler l) (m l) (dora l).
Definition set_weight_scaler (s : option (Vector T)) (l : Layer T) : Layer T :=
    mkLayer (mkLinear (in_features l) (out_features l) (quant l) (weight l) s)
            (lora_rank l) (lora_scaler l) (weight_a l) (weight_b l)
            (weight_a_scaler l) (weight_b_scaler l) (m l) (dora l).
Definition set_lora_rank (r : Z) (l : Layer T) : Layer T :=
    mkLayer (super l) r (lora_scaler l) (weight_a l) (weight_b l)
            (weight_a_scaler l) (weight_b_scaler l) (m l) (dora l).
Definition set_lora_scaler (c : T) (l : Layer T) : Layer T :=
    mkLayer (super l) (lora_rank l) c (weight_a l) (weight_b l)
            (weight_a_scaler l) (weight_b_scaler l) (m l) (dora l).
Definition set_weight_a (a : option (Matrix T)) (l : Layer T) : Layer T :=
    mkLayer (super l) (lora_rank l) (lora_scaler l) a (weight_b l)
            (weight_a_scaler l) (weight_b_scaler l) (m l) (dora l).
Definition set_weight_b (b : option (Matrix T)) (l : Layer T) : Layer T :=
    mkLayer (super l) (lora_rank l) (lora_scaler l) (weight_a l) b
            (weight_a_scaler l) (weight_b_scaler l) (m l) (dora l).
Definition set_weight_a_scaler (s : option (Vector T)) (l : Layer T) : Layer T :=
    mkLayer (super l) (lora_rank l) (lora_scaler l) (weight_a l) (weight_b l)
            s (weight_b_scaler l) (m l) (dora l).
Definition set_weight_b_scaler (s : option (Vector T)) (l : Layer T) : Layer T :=
    mkLayer (super l) (lora_rank l) (lora_scaler l) (weight_a l) (weight_b l)
            (weight_a_scaler l) s (m l) (dora l).
Definition set_dora (d : bool) (l : Layer T) : Layer T :=
    mkLayer (super l) (lora_rank l) (lora_scaler l) (weight_a l) (weight_b l)
            (weight_a_scaler l) (weight_b_scaler l) (m l) d.
End Setters.

(** The state and exception monad of the stateful code: for a method the
    state is [self], for the graph rewrite it is the module graph. A raised
    exception keeps the mutations made before it. *)
Definition M (S A : Type) := S -> S * Result A.

Section Monad.
Context {S : Type}.

Definition ret {A : Type} (a : A) : M S A := fun s => (s, Ok a).
Definition bind {A B : Type} (c : M S A) (k : A -> M S B) : M S B :=
    fun s => match c s with
             | (s', Ok a) => k a s'
             | (s', Raise e) => (s', Raise e)
             end.
Definition raise {A : Type} (e : Exn) : M S A := fun s => (s, Raise e).
Definition gets {A : Type} (f : S -> A) : M S A := fun s => (s, Ok (f s)).
Definition modify (f : S -> S) : M S unit := fun s => (f s, Ok tt).

(** [for x in xs: body(x)] *)
Fixpoint for_each {A : Type} (xs : list A) (body : A -> M S unit) : M S unit :=
    match xs with
    | [] => ret tt
    | x :: xs' => bind (body x) (fun _ => for_each xs' body)
    end.
End Monad.

Notation "x <- c ;; k" := (bind c (fun x => k))
  (at level 61, c at next level, right associativity).
Notation "c ;; k" := (bind c (fun _ => k))
  (at level 61, right associativity).

(** The tensor parameters of the layer, as attribute names. *)
Inductive ParamName := P_weight | P_weight_a | P_weight_b.

(** What a local name is bound to: the stored parameter object itself, or a
    temporary tensor produced by an operation. *)
Inductive Tensor (T : Type) :=
| Stored (p : ParamName)
| Temp (v : Matrix T).
Arguments Stored {T} p.
Arguments Temp {T} v.

Section LinearWithLoRA.
Context {T : Type} `{Scalar T}.

(** [__init__], lines 30-52, in the order of the source.
    - Line 32: [lora_scaler / lora_rank] is Python's true division, which
      raises [ZeroDivisionError] on a zero divisor.
    - Line 36, with [quant] set: [nn.Parameter] is given an int8 tensor and
      its default [requires_grad=True]; torch lets only floating point
      tensors require gradients and raises [RuntimeError] (as does
      [torch.empty] for a negative rank). Lines 37-43 are never reached, so
      no layer the constructor returns has adapter scalers.
    - Line 45, without [quant]: [torch.empty] with a negative dimension
      raises [RuntimeError].
    - Line 47: [1 / in_features] raises [ZeroDivisionError] for
      [in_features = 0]. *)
Definition LinearWithLoRA_init (inf outf : nat) (rank : Z) (scaler : T)
             (use_dora q : bool) (u : Fresh T) : Result (Layer T) :=
    let base := Linear_init inf outf q u in
    if (rank =? 0)%Z then Raise ZeroDivisionError
    else
      let sc := tdiv scaler (tint rank) in
      if q then Raise RuntimeError
      else if (rank <? 0)%Z then Raise RuntimeError
      else if (inf =? 0)%nat then Raise ZeroDivisionError
      else
        let r := Z.to_nat rank in
        Ok {| super := base;
              lora_rank := rank;
              lora_scaler := sc;
              weight_a := Some (mk_matrix r inf (normal_weight_a u));
              weight_b := Some (zeros outf r);
              weight_a_scaler := None;
              weight_b_scaler := None;
              m := row_norms (weight base);
              dora := use_dora |}.

(** The value currently held by the tensor a name is bound to. *)
Definition value (l : Layer T) (t : Tensor T) : Matrix T :=
    match t with
    | Temp v => v
    | Stored P_weight => weight l
    | Stored P_weight_a => match weight_a l with Some a => a | None => [] end
    | Stored P_weight_b => match weight_b l with Some b => b | None => [] end
    end.

Definition hasattr (p : ParamName) (l : Layer T) : bool :=
    match p with
    | P_weight => true
    | P_weight_a => match weight_a l with Some _ => true | None => false end
    | P_weight_b => match weight_b l with Some _ => true | None => false end
    end.

(** [self.<p>]: the parameter object, or [AttributeError]. *)
Definition getattr (p : ParamName) : M (Layer T) (Tensor T) :=
    fun l => if hasattr p l then (l, Ok (Stored p)) else (l, Raise AttributeError).

(** [t += v]: in place on the object [t] is bound to. *)
Definition iadd (t : Tensor T) (v : Matrix T) : M (Layer T) (Tensor T) :=
    fun l => match t with
             | Temp w => (l, Ok (Temp (madd w v)))
             | Stored P_weight => (set_weight (madd (weight l) v) l, Ok t)
             | Stored P_weight_a =>
                 (set_weight_a (option_map (fun a => madd a v) (weight_a l)) l, Ok t)
             | Stored P_weight_b =>
                 (set_weight_b (option_map (fun b => madd b v) (weight_b l)) l, Ok t)
             end.

(** Lines 89-99: [getattr(self, "<name>_scaler", None)]. *)
Definition weight_quantizer (l : Layer T) : option (Vector T) := weight_scaler l.
Definition weight_a_quantizer (l : Layer T) : option (Vector T) := weight_a_scaler l.
Definition weight_b_quantizer (l : Layer T) : option (Vector T) := weight_b_scaler l.

(** Lines 74-77. The second branch returns the argument object itself. *)
Definition _quantize_weight (l : Layer T) (w : Tensor T)
             (quantizer : option (Vector T)) : Tensor T :=
    match quantizer with
    | Some q => if quant l then Temp (scale_rows (value l w) q) else w
    | None => w
    end.

(** Lines 79-87. *)
Definition _apply_dora (l : Layer T) (w lora_weight : Matrix T) : Matrix T :=
    let directional_numerator := madd w (smul (lora_scaler l) lora_weight) in
    let directional_denominator := row_norms directional_numerator in
    let directional_component := div_rows directional_numerator directional_denominator in
    mul_rows (m l) directional_component.

(** Lines 54-72. *)
Definition forward (x : Matrix T) : M (Layer T) (Matrix T) :=
    w0 <- getattr P_weight ;;
    w <- gets (fun l => _quantize_weight l w0 (weight_quantizer l)) ;;
    has_a <- gets (hasattr P_weight_a) ;;
    has_b <- gets (hasattr P_weight_b) ;;
    lora_weight <-
      (if has_a && has_b then
         a0 <- getattr P_weight_a ;;
         a <- gets (fun l => _quantize_weight l a0 (weight_a_quantizer l)) ;;
         b0 <- getattr P_weight_b ;;
         b <- gets (fun l => _quantize_weight l b0 (weight_b_quantizer l)) ;;
         gets (fun l => Some (matmul (value l b) (value l a)))
       else ret None) ;;
    d <- gets (@dora T) ;;
    match lora_weight with
    | Some lw =>
        if d then
          r <- gets (fun l => _apply_dora l (value l w) lw) ;;
          ret (linear x r)
        else
          w' <- iadd w lw ;;
          gets (fun l => linear x (value l w'))
    | None => gets (fun l => linear x (value l w))
    end.

(** [delattr(self, name)] for the four names [merge_lora] deletes. *)
Definition delattr (name : string) : M (Layer T) unit :=
    fun l =>
      if (name =? "weight_a")%string then
        match weight_a l with
        | Some _ => (set_weight_a None l, Ok tt)
        | None => (l, Raise AttributeError)
        end
      else if (name =? "weight_b")%string then
        match weight_b l with
        | Some _ => (set_weight_b None l, Ok tt)
        | None => (l, Raise AttributeError)
        end
      else if (name =? "weight_a_scaler")%string then
        match weight_a_scaler l with
        | Some _ => (set_weight_a_scaler None l, Ok tt)
        | None => (l, Raise AttributeError)
        end
      else if (name =? "weight_b_scaler")%string then
        match weight_b_scaler l with
        | Some _ => (set_weight_b_scaler None l, Ok tt)
        | None => (l, Raise AttributeError)
        end
      else (l, Raise AttributeError).

(** Lines 101-116. [_apply_dora] and the in-place addition both take
      [self.weight], the stored (not the reconstructed) weight. *)
Definition merge_lora : M (Layer T) unit :=
    rank <- gets (@lora_rank T) ;;
    if (0 <? rank)%Z then
      a0 <- getattr P_weight_a ;;
      a <- gets (fun l => _quantize_weight l a0 (weight_a_quantizer l)) ;;
      b0 <- getattr P_weight_b ;;
      b <- gets (fun l => _quantize_weight l b0 (weight_b_quantizer l)) ;;
      lora_weight <- gets (fun l => matmul (value l b) (value l a)) ;;
      d <- gets (@dora T) ;;
      (if d then
         modify (fun l => set_weight (_apply_dora l (weight l) lora_weight) l)
       else
         w <- getattr P_weight ;;
         _ <- iadd w lora_weight ;;
         ret tt) ;;
      delattr "weight_a" ;;
      delattr "weight_b" ;;
      delattr "weight_a_scaler" ;;
      delattr "weight_b_scaler" ;;
      modify (set_lora_rank 0)
    else ret tt.

(** Lines 118-119. *)
Definition enable_dora : M (Layer T) unit := modify (set_dora true).
End LinearWithLoRA.

(** ** The module graph and [switch_to_lora] *)

(** A module of the host model: what class it is an instance of, and its
    [_modules] dictionary in insertion order. Python compares modules by
    identity ([is], and [list.index] on objects without [__eq__]); every
    node carries the identity of its object. The graph is a tree of
    distinct objects. *)
Inductive Kind (T : Type) :=
| KLinear (b : Linear T)
| KLinearWithLoRA (l : Layer T)
| KOther.
Arguments KOther {T}.

#[warnings="-register-all"]
Inductive NNModule (T : Type) :=
| Node (ident : nat) (k : Kind T) (children : list (string * NNModule T)).

(** The graph, and the identity the next constructed object receives. *)
Record World (T : Type) := mkWorld {
  model : NNModule T;
  next_ident : nat
}.

(** [sub in s] on Python strings. *)
Fixpoint contains (sub s : string) : bool :=
  if String.prefix sub s then true
  else match s with
       | EmptyString => false
       | String _ s' => contains sub s'
       end.

Section Graph.
Context {T : Type} `{Scalar T}.

Definition ident_of (n : NNModule T) : nat := match n with Node i _ _ => i end.
Definition kind_of (n : NNModule T) : Kind T := match n with Node _ k _ => k end.
Definition _modules (n : NNModule T) : list (string * NNModule T) :=
    match n with Node _ _ cs => cs end.

(** [isinstance(module, Linear)]: [LinearWithLoRA] is a subclass of
    [Linear] (line 11), so its instances are instances of [Linear]. *)
Definition as_Linear (n : NNModule T) : option (Linear T) :=
    match kind_of n with
    | KLinear b => Some b
    | KLinearWithLoRA l => Some (super l)
    | KOther => None
    end.
Definition isinstance_Linear (n : NNModule T) : bool :=
    match as_Linear n with Some _ => true | None => false end.

(** [nn.Module.named_modules()]: the module itself under [prefix], then
    the modules below each child, under [prefix.name]. *)
Definition qualified (prefix name : string) : string :=
    match prefix with
    | EmptyString => name
    | _ => (prefix ++ "." ++ name)%string
    end.

Fixpoint named_modules (prefix : string) (n : NNModule T) : list (string * NNModule T) :=
    (prefix, n) ::
    match n with
    | Node _ _ cs =>
        (fix below (cs : list (string * NNModule T)) : list (string * NNModule T) :=
           match cs with
           | [] => []
           | (name, c) :: cs' => named_modules (qualified prefix name) c ++ below cs'
           end) cs
    end.

(** Lines 155-171: the first module, children before grandchildren of the
    next child, that has [module] among its direct children; [None] when
    there is none. The result is the identity of the parent object. *)
Fixpoint get_parent_model (parent_model : NNModule T) (module : nat) : option nat :=
    match parent_model with
    | Node i _ cs =>
        (fix search (cs : list (string * NNModule T)) : option nat :=
           match cs with
           | [] => None
           | (_, sub_module) :: cs' =>
               if ident_of sub_module =? module then Some i
               else match get_parent_model sub_module module with
                    | Some p => Some p
                    | None => search cs'
                    end
           end) cs
    end.

(** Line 153: [setattr(parent, key, lora_layer)], where [key] is the name
    of the first child of [parent] that is [module]. *)
Fixpoint replace_first (module : nat) (new : NNModule T)
           (cs : list (string * NNModule T)) : list (string * NNModule T) :=
    match cs with
    | [] => []
    | (name, c) :: cs' =>
        if ident_of c =? module then (name, new) :: cs'
        else (name, c) :: replace_first module new cs'
    end.

Fixpoint set_child (parent module : nat) (new : NNModule T) (n : NNModule T) : NNModule T :=
    match n with
    | Node i k cs =>
        if i =? parent then Node i k (replace_first module new cs)
        else Node i k
               ((fix each (cs : list (string * NNModule T)) : list (string * NNModule T) :=
                   match cs with
                   | [] => []
                   | (name, c) :: cs' => (name, set_child parent module new c) :: each cs'
                   end) cs)
    end.

Section Rewrite.
Variable alloc : nat -> Fresh T.

(** Lines 139-153, for one [replace_name]. [alloc i] is what the
    constructor of the object with identity [i] finds in its fresh storage
    and draws for [weight_a]. *)
Definition replace_module (rank : Z) (lora_scaler : T) (use_dora : bool)
             (name : string) (module : NNModule T) (replace_name : string)
    : M (World T) unit :=
    match as_Linear module with
    | Some b =>
        if contains replace_name name then
          fun w =>
            let i := next_ident w in
            match LinearWithLoRA_init (in_features b) (out_features b) rank
                    lora_scaler use_dora (quant b) (alloc i) with
            | Raise e => (w, Raise e)
            | Ok fresh_layer =>
                let w1 := mkWorld (model w) (S i) in
                let lora_layer := set_weight (weight b) fresh_layer in
                let copied :=
                  if quant b then
                    match weight_scaler b with
                    | Some s => Ok (set_weight_scaler (Some s) lora_layer)
                    | None => Raise AttributeError
                    end
                  else Ok lora_layer in
                match copied with
                | Raise e => (w1, Raise e)
                | Ok lora_layer =>
                    match get_parent_model (model w1) (ident_of module) with
                    | None => (w1, Raise AttributeError)
                    | Some parent =>
                        (mkWorld (set_child parent (ident_of module)
                                    (Node i (KLinearWithLoRA lora_layer) []) (model w1))
                                 (S i),
                         Ok tt)
                    end
                end
            end
        else ret tt
    | None => ret tt
    end.

(** Lines 126-153. The generator of [named_modules] walks the objects of
    the graph as they were when it reached them; a replaced module has
    already been yielded, so the walk is the one over the initial graph. *)
Definition switch_to_lora (replace_names : option (list string)) (rank : Z)
             (lora_scaler : T) (use_dora : bool) : M (World T) unit :=
    let replace_names :=
      match replace_names with
      | None => ["qkv_proj"%string]
      | Some names => names
      end in
    fun w =>
      for_each (named_modules "" (model w))
        (fun nm => for_each replace_names
                     (replace_module rank lora_scaler use_dora (fst nm) (snd nm)))
        w.
End Rewrite.
End Graph.

(** ** Scalar instances *)

(** Integer-valued tensors. [Z.div] and [Z.sqrt] round down; the examples
    use them where the quotient and the root are exact. *)
#[export] Instance Z_scalar : Scalar Z :=
  {| tzero := 0%Z; tadd := Z.add; tmul := Z.mul; tdiv := Z.div;
     tsqrt := Z.sqrt; tint := fun z => z |}.

#[export] Instance R_scalar : Scalar R :=
  {| tzero := 0%R; tadd := Rplus; tmul := Rmult; tdiv := Rdiv;
     tsqrt := sqrt; tint := IZR |}.

(** ** Derived notions used in the statements *)

Section Effective.
Context {T : Type} `{Scalar T}.

(** The matrix [_quantize_weight] denotes, whichever object carries it. *)
Definition effective (l : Layer T) (raw : Matrix T) (quantizer : option (Vector T)) : Matrix T :=
    value l (_quantize_weight l (Temp raw) quantizer).

(** The reconstruction rule in the words of the specification: when the
    layer is quantized and the scaler is present, entry [(i,j)] of the
    result is entry [(i,j)] of the raw matrix times entry [i] of the scaler;
    otherwise the raw matrix. *)
Definition channelwise (raw : Matrix T) (scaler : Vector T) : Matrix T :=
    map (fun i => map (fun a => tmul a (nth i scaler tzero)) (nth i raw []))
        (seq 0 (List.length raw)).

Definition effective_weight_spec (quantized : bool) (raw : Matrix T)
             (scaler : option (Vector T)) : Matrix T :=
    match scaler with
    | Some s => if quantized then channelwise raw s else raw
    | None => raw
    end.

(** The additive composition in the words of the specification: both
    factors are there, and [forward] returns [x] times the transpose of
    (effective weight + effective [weight_b] @ effective [weight_a]), each
    reconstructed from the stored tensor and its scaler, with no
    [lora_scaler]. *)
Definition computes_additive (l : Layer T) (x : Matrix T) : Prop :=
  exists a b,
    weight_a l = Some a /\ weight_b l = Some b
    /\ snd (forward x l) =
       Ok (linear x
             (madd (effective_weight_spec (quant l) (weight l) (weight_scaler l))
                   (matmul (effective_weight_spec (quant l) b (weight_b_scaler l))
                           (effective_weight_spec (quant l) a (weight_a_scaler l))))).

(** What [forward] composes the effective weights with. *)
Definition compose (l : Layer T) (w lora_weight : Matrix T) : Matrix T :=
  if dora l then _apply_dora l w lora_weight else madd w lora_weight.

(** A row of zeros. *)
Definition zero_row (r : Vector T) : Prop := Forall (fun a => a = tzero) r.

(** A row that is not all zero. *)
Definition nonzero_row (r : Vector T) : Prop := exists a, In a r /\ a <> tzero.

(** A scaler, when present, has one entry per row of its matrix. *)
Definition fits (raw : Matrix T) (scaler : option (Vector T)) : Prop :=
    match scaler with
    | Some s => List.length s = List.length raw
    | None => True
    end.
End Effective.

(** ** Shapes *)

Section Shapes.
Context {T : Type} `{Scalar T}.

(** The row counts the operations of the layer rely on: the weight, [m]
    and [weight_b] have [out_features] rows, and the scalers of the weight
    and of [weight_b], when present, one entry per row. *)
Definition well_shaped (l : Layer T) : Prop :=
  List.length (weight l) = out_features l
  /\ List.length (m l) = out_features l
  /\ fits (weight l) (weight_scaler l)
  /\ match weight_b l with
     | Some b => List.length b = out_features l /\ fits b (weight_b_scaler l)
     | None => True
     end.
End Shapes.

(** ** Notions used for the module graph *)

(** [InTree s n]: the module [s] is [n] or lies below it. *)
Inductive InTree {T : Type} : NNModule T -> NNModule T -> Prop :=
| InTree_self (n : NNModule T) : InTree n n
| InTree_child (s : NNModule T) (i : nat) (k : Kind T)
    (cs : list (string * NNModule T)) (name : string) (c : NNModule T) :
    In (name, c) cs -> InTree s c -> InTree s (Node i k cs).

Section GraphNotions.
Context {T : Type} `{Scalar T}.

(** The module [s] has the object [module] among its direct children. *)
Definition has_child (s : NNModule T) (module : nat) : Prop :=
  exists name c, In (name, c) (_modules s) /\ ident_of c = module.

(** The names [switch_to_lora] works with (line 135). *)
Definition names_of (replace_names : option (list string)) : list string :=
  match replace_names with
  | None => ["qkv_proj"%string]
  | Some names => names
  end.

(** The test of line 139 for one yielded pair, over all the names. *)
Definition matches (names : list string) (nm : string * NNModule T) : bool :=
  isinstance_Linear (snd nm) && existsb (fun r => contains r (fst nm)) names.
End GraphNotions.

(** ** Example layers and graphs (integer-valued tensors) *)

Module Examples.
Open Scope Z_scope.
Open Scope string_scope.

(** A stored layer [in_features = out_features = rank = 1], not quantized,
    DoRA off, with [weight = [[1]]], [weight_a = [[1]]], [weight_b = [[1]]]. *)
Definition plain_layer : Layer Z :=
  {| super := {| in_features := 1; out_features := 1; quant := false;
                 weight := [[1]]; weight_scaler := None |};
     lora_rank := 1; lora_scaler := 32;
     weight_a := Some [[1]]; weight_b := Some [[1]];
     weight_a_scaler := None; weight_b_scaler := None;
     m := [1]; dora := false |}.

(** A quantized layer with all three scalers, 2 inputs, 2 outputs, rank 1. *)
Definition quant_layer : Layer Z :=
  {| super := {| in_features := 2; out_features := 2; quant := true;
                 weight := [[1; 2]; [3; 4]]; weight_scaler := Some [2; 3] |};
     lora_rank := 1; lora_scaler := 32;
     weight_a := Some [[1; 1]]; weight_b := Some [[1]; [2]];
     weight_a_scaler := Some [5]; weight_b_scaler := Some [1; 1];
     m := [2; 5]; dora := false |}.

(** A layer after a merge: no adapter, [lora_rank = 0]. *)
Definition merged_layer : Layer Z :=
  {| super := {| in_features := 2; out_features := 1; quant := false;
                 weight := [[3; 4]]; weight_scaler := None |};
     lora_rank := 0; lora_scaler := 8;
     weight_a := None; weight_b := None;
     weight_a_scaler := None; weight_b_scaler := None;
     m := [5]; dora := false |}.

(** A layer over the reals, 2 inputs, 1 output, rank 1, whose [m] is the
    row norm of the weight [[3; 4]] it was constructed with. *)
Definition real_layer : Layer R :=
  {| super := {| in_features := 2; out_features := 1; quant := false;
                 weight := [[3; 4]]%R; weight_scaler := None |};
     lora_rank := 1; lora_scaler := 2%R;
     weight_a := Some [[1; 0]]%R; weight_b := Some [[1]]%R;
     weight_a_scaler := None; weight_b_scaler := None;
     m := row_norms [[3; 4]]%R; dora := false |}.

(** Fresh storage reads as zeros; the draw for [weight_a] of the object
    with identity [i] is [i] everywhere; fresh scalers read as 2. *)
Definition alloc (i : nat) : Fresh Z :=
  {| empty_weight := fun _ _ => 0;
     empty_weight_scaler := fun _ => 2;
     normal_weight_a := fun _ _ => Z.of_nat i;
     empty_weight_a_scaler := fun _ => 2;
     empty_weight_b_scaler := fun _ => 2 |}.

(** Fresh storage with [weight = [[1]]] and every scaler 2. *)
Definition ones_twos : Fresh Z :=
  {| empty_weight := fun _ _ => 1;
     empty_weight_scaler := fun _ => 2;
     normal_weight_a := fun _ _ => 1;
     empty_weight_a_scaler := fun _ => 2;
     empty_weight_b_scaler := fun _ => 2 |}.

(** A host model [root.attn.{qkv_proj, o_proj}] with two base layers. *)
Definition qkv : Linear Z :=
  {| in_features := 2; out_features := 1; quant := false;
     weight := [[3; 4]]; weight_scaler := None |}.
Definition o_proj : Linear Z :=
  {| in_features := 1; out_features := 1; quant := false;
     weight := [[7]]; weight_scaler := None |}.
Definition host : World Z :=
  {| model := Node 0 KOther
                [("attn", Node 1 KOther
                            [("qkv_proj", Node 2 (KLinear qkv) []);
                             ("o_proj", Node 3 (KLinear o_proj) [])])];
     next_ident := 4 |}.

(** The adapter [switch_to_lora] installs for [qkv_proj] when the new
    object has identity [i]. *)
Definition installed_layer (i : nat) (use_dora : bool) : Layer Z :=
  {| super := qkv;
     lora_rank := 1; lora_scaler := 32;
     weight_a := Some [[Z.of_nat i; Z.of_nat i]]; weight_b := Some [[0]];
     weight_a_scaler := None; weight_b_scaler := None;
     m := [0]; dora := use_dora |}.
Definition installed (i : nat) (use_dora : bool) : NNModule Z :=
  Node i (KLinearWithLoRA (installed_layer i use_dora)) [].
Definition host_with (qkv_node : NNModule Z) (next : nat) : World Z :=
  {| model := Node 0 KOther
                [("attn", Node 1 KOther
                            [("qkv_proj", qkv_node);
                             ("o_proj", Node 3 (KLinear o_proj) [])])];
     next_ident := next |}.

(** Fresh storage holding the weight row [3; 4] (norm 5) and a draw of
    ones for [weight_a]. *)
Definition three_four : Fresh Z :=
  {| empty_weight := fun _ j => match j with O => 3 | _ => 4 end;
     empty_weight_scaler := fun _ => 2;
     normal_weight_a := fun _ _ => 1;
     empty_weight_a_scaler := fun _ => 2;
     empty_weight_b_scaler := fun _ => 2 |}.

(** The layer [LinearWithLoRA(2, 1, lora_rank=1, lora_scaler=32)] builds
    from the storage [three_four]. *)
Definition fresh_layer : Layer Z :=
  {| super := {| in_features := 2; out_features := 1; quant := false;
                 weight := [[3; 4]]; weight_scaler := None |};
     lora_rank := 1; lora_scaler := 32;
     weight_a := Some [[1; 1]]; weight_b := Some [[0]];
     weight_a_scaler := None; weight_b_scaler := None;
     m := [5]; dora := false |}.

(** The layer [plain_layer] with the two adapter scalers set by hand (the
    constructor creates none for a layer that is not quantized). *)
Definition scaled_layer : Layer Z :=
  set_weight_b_scaler (Some [1]) (set_weight_a_scaler (Some [1]) plain_layer).

(** The quantized layer with another scaler for [weight_b]. *)
Definition rescaled_quant_layer : Layer Z :=
  set_weight_b_scaler (Some [3; 1]) quant_layer.

(** Storage over the reals holding the weight [[3; 4]]. *)
Definition real_storage : Fresh R :=
  {| empty_weight := fun _ j => match j with O => 3%R | _ => 4%R end;
     empty_weight_scaler := fun _ => 1%R;
     normal_weight_a := fun _ _ => 1%R;
     empty_weight_a_scaler := fun _ => 1%R;
     empty_weight_b_scaler := fun _ => 1%R |}.

(** The layer [LinearWithLoRA(2, 1, lora_rank=1, lora_scaler=2,
    use_dora=True)] builds from it. *)
Definition fresh_real_layer : Layer R :=
  {| super := {| in_features := 2; out_features := 1; quant := false;
                 weight := [[3; 4]]%R; weight_scaler := None |};
     lora_rank := 1; lora_scaler := (2 / 1)%R;
     weight_a := Some [[1; 1]]%R; weight_b := Some [[0]]%R;
     weight_a_scaler := None; weight_b_scaler := None;
     m := row_norms [[3; 4]]%R; dora := true |}.

(** A host model whose [qkv_proj] is a quantized base layer. *)
Definition quant_qkv : Linear Z :=
  {| in_features := 2; out_features := 1; quant := true;
     weight := [[3; 4]]; weight_scaler := Some [2] |}.
Definition quant_host : World Z :=
  host_with (Node 2 (KLinear quant_qkv) []) 4.

(** A model that is itself a base layer. *)
Definition lone_linear : World Z :=
  {| model := Node 0 (KLinear o_proj) []; next_ident := 1 |}.

(** The layer [plain_layer] after a merge that raised at line 114. *)
Definition half_merged_layer : Layer Z :=
  set_weight_b None (set_weight_a None (set_weight [[2]] plain_layer)).

(** The module [attn] of [host] and its child [qkv_proj]. *)
Definition qkv_node : NNModule Z := Node 2 (KLinear qkv) [].
Definition attn_node : NNModule Z :=
  Node 1 KOther [("qkv_proj", qkv_node); ("o_proj", Node 3 (KLinear o_proj) [])].
End Examples.

(** ** Properties *)

Ltac run :=
  unfold forward, merge_lora, enable_dora, bind, gets, getattr, ret, modify,
         iadd, delattr, hasattr, effective, _quantize_weight, value,
         weight_quantizer, weight_a_quantizer, weight_b_quantizer;
  cbn.

Ltac destruct_layer l :=
  let inf := fresh "inf" in let outf := fresh "outf" in
  destruct l as [[inf outf q w ws] r sc wa wb sa sb mm d]; cbn in *.

Section Construction.
Context {T : Type} `{Scalar T}.

(** C8. Constructing a layer with [lora_rank = 0] raises
    [ZeroDivisionError] (the division of line 32), whatever the other
    arguments; the constructor returns no layer. *)
Theorem init_rank_zero_raises (inf outf : nat) (scaler : T) (use_dora q : bool)
        (u : Fresh T) :
  LinearWithLoRA_init inf outf 0 scaler use_dora q u = Raise ZeroDivisionError.
Proof. reflexivity. Qed.

(** With a rank of at least one, [quant] off and at least one input
    feature, the constructor returns a layer that carries both factors and
    the rank. *)
Lemma init_positive_rank (inf outf : nat) (rank : Z) (scaler : T)
      (use_dora : bool) (u : Fresh T) :
  (1 <= rank)%Z -> inf <> 0%nat ->
  exists l, LinearWithLoRA_init inf outf rank scaler use_dora false u = Ok l
            /\ lora_rank l = rank
            /\ weight_a l = Some (mk_matrix (Z.to_nat rank) inf (normal_weight_a u))
            /\ weight_b l = Some (zeros outf (Z.to_nat rank))
            /\ dora l = use_dora /\ quant l = false.
Proof.
  intros Hr Hi. unfold LinearWithLoRA_init.
  destruct (rank =? 0)%Z eqn:E0; [apply Z.eqb_eq in E0; lia|].
  destruct (rank <? 0)%Z eqn:E1; [apply Z.ltb_lt in E1; lia|].
  destruct (inf =? 0)%nat eqn:E2; [apply Nat.eqb_eq in E2; contradiction|].
  eexists; repeat split.
Qed.

(** What the constructor returns was built with [quant] off, a positive
    rank and at least one input feature. *)
Lemma init_returns_inv (inf outf : nat) (rank : Z) (scaler : T)
      (use_dora q : bool) (u : Fresh T) (l : Layer T) :
  LinearWithLoRA_init inf outf rank scaler use_dora q u = Ok l ->
  q = false /\ (1 <= rank)%Z /\ inf <> 0%nat
  /\ l = {| super := Linear_init inf outf false u;
            lora_rank := rank;
            lora_scaler := tdiv scaler (tint rank);
            weight_a := Some (mk_matrix (Z.to_nat rank) inf (normal_weight_a u));
            weight_b := Some (zeros outf (Z.to_nat rank));
            weight_a_scaler := None;
            weight_b_scaler := None;
            m := row_norms (weight (Linear_init inf outf false u));
            dora := use_dora |}.
Proof.
  unfold LinearWithLoRA_init.
  destruct (rank =? 0)%Z eqn:E0; [discriminate|].
  destruct q; [discriminate|].
  destruct (rank <? 0)%Z eqn:E1; [discriminate|].
  destruct (inf =? 0)%nat eqn:E2; [discriminate|].
  apply Z.eqb_neq in E0. apply Z.ltb_ge in E1. apply Nat.eqb_neq in E2.
  intros Hl; inversion Hl. repeat split; auto; lia.
Qed.

(** With [quant] set and a rank other than zero the constructor raises
    [RuntimeError] (line 36). *)
Lemma init_quantized_raises (inf outf : nat) (rank : Z) (scaler : T)
      (use_dora : bool) (u : Fresh T) :
  rank <> 0%Z ->
  LinearWithLoRA_init inf outf rank scaler use_dora true u = Raise RuntimeError.
Proof.
  intros Hr. unfold LinearWithLoRA_init.
  destruct (rank =? 0)%Z eqn:E0; [apply Z.eqb_eq in E0; contradiction | reflexivity].
Qed.

(** Without input features the constructor raises [ZeroDivisionError]
    (line 47). *)
Lemma init_no_input_raises (outf : nat) (rank : Z) (scaler : T)
      (use_dora : bool) (u : Fresh T) :
  (0 <= rank)%Z ->
  LinearWithLoRA_init 0 outf rank scaler use_dora false u = Raise ZeroDivisionError.
Proof.
  intros Hr. unfold LinearWithLoRA_init.
  destruct (rank =? 0)%Z eqn:E0; [reflexivity|].
  destruct (rank <? 0)%Z eqn:E1; [apply Z.ltb_lt in E1; lia | reflexivity].
Qed.

(** A negative rank is refused as well, by the allocation. *)
Lemma init_negative_rank (inf outf : nat) (rank : Z) (scaler : T)
      (use_dora q : bool) (u : Fresh T) :
  (rank < 0)%Z ->
  LinearWithLoRA_init inf outf rank scaler use_dora q u = Raise RuntimeError.
Proof.
  intros Hr. unfold LinearWithLoRA_init.
  destruct (rank =? 0)%Z eqn:E0; [apply Z.eqb_eq in E0; lia|].
  destruct q; [reflexivity|].
  destruct (rank <? 0)%Z eqn:E1; [reflexivity | apply Z.ltb_ge in E1; lia].
Qed.

(** [m] is computed from the storage the constructor allocates, and an
    assignment to the weight afterwards does not change it. *)
Lemma init_magnitude (inf outf : nat) (rank : Z) (scaler : T)
      (use_dora q : bool) (u : Fresh T) (l : Layer T) (w : Matrix T) :
  LinearWithLoRA_init inf outf rank scaler use_dora q u = Ok l ->
  m (set_weight w l) = row_norms (mk_matrix outf inf (empty_weight u)).
Proof.
  intros Hl. apply init_returns_inv in Hl. destruct Hl as (_ & _ & _ & ->).
  reflexivity.
Qed.

(** An adapter layer in the graph passes the test of line 139. *)
Lemma adapter_isinstance_Linear (i : nat) (l : Layer T)
      (cs : list (string * NNModule T)) :
  isinstance_Linear (Node i (KLinearWithLoRA l) cs) = true.
Proof. reflexivity. Qed.
End Construction.

Section Merge.
Context {T : Type} `{Scalar T}.

(** C10. [merge_lora] on a layer whose [lora_rank] is 0 raises nothing and
    returns the layer as it was. *)
Theorem merge_lora_rank_zero_noop (l : Layer T) :
  lora_rank l = 0%Z -> merge_lora l = (l, Ok tt).
Proof.
  intros Hr. unfold merge_lora, bind, gets. rewrite Hr. reflexivity.
Qed.

(** X13. A merge that returns normally leaves [lora_rank = 0] or found it
    non-positive, so a second call changes nothing. *)
Lemma merge_lora_twice (l l' : Layer T) :
  merge_lora l = (l', Ok tt) -> merge_lora l' = (l', Ok tt).
Proof.
  intros Hm.
  assert (Hr : (0 <? lora_rank l')%Z = false).
  { revert Hm. destruct_layer l. run.
    destruct (0 <? r)%Z eqn:E; cbn.
    - destruct wa; cbn; [|discriminate].
      destruct wb; cbn; [|discriminate].
      destruct d; cbn;
        destruct sa; cbn; try discriminate;
        destruct sb; cbn; try discriminate;
        intros Hm; inversion Hm; reflexivity.
    - intros Hm; inversion Hm; subst; exact E. }
  unfold merge_lora, bind, gets. rewrite Hr. reflexivity.
Qed.

(** X11. Without the adapter scalers (a layer that is not quantized) a merge
    with [lora_rank > 0] raises [AttributeError] at line 114: the factors
    are gone, the weight has been rewritten, [lora_rank] is unchanged. *)
Lemma merge_lora_unquantized_raises (l : Layer T) (a b : Matrix T) :
  (0 < lora_rank l)%Z -> weight_a l = Some a -> weight_b l = Some b ->
  weight_a_scaler l = None ->
  exists l', merge_lora l = (l', Raise AttributeError)
             /\ lora_rank l' = lora_rank l
             /\ weight_a l' = None /\ weight_b l' = None.
Proof.
  intros Hr Ha Hb Hs. apply Z.ltb_lt in Hr.
  destruct_layer l. subst. run. rewrite Hr; cbn.
  destruct d; cbn; eexists; repeat split.
Qed.

(** X10. A merge with [lora_rank > 0] that returns normally found both
    factors and both adapter scalers on the layer (so it does not return
    normally on a layer as the constructor builds it); it leaves
    [lora_rank = 0], the factors and their scalers deleted, and as stored
    weight the stored weight composed with the low-rank product. *)
Lemma merge_lora_returns (l l' : Layer T) :
  (0 < lora_rank l)%Z -> merge_lora l = (l', Ok tt) ->
  lora_rank l' = 0%Z
  /\ weight_a l' = None /\ weight_b l' = None
  /\ weight_a_scaler l' = None /\ weight_b_scaler l' = None
  /\ exists a b, weight_a l = Some a /\ weight_b l = Some b
                 /\ weight_a_scaler l <> None /\ weight_b_scaler l <> None
                 /\ weight l' = compose l (weight l)
                                   (matmul (effective l b (weight_b_scaler l))
                                           (effective l a (weight_a_scaler l))).
Proof.
  intros Hr. apply Z.ltb_lt in Hr. destruct_layer l. unfold compose. run.
  rewrite Hr; cbn.
  destruct wa as [a|]; cbn; [|discriminate].
  destruct wb as [b|]; cbn; [|discriminate].
  destruct d, sa, sb, q; cbn; try discriminate;
    intros Hm; inversion Hm; cbn; repeat split;
    exists a, b; repeat split; discriminate.
Qed.
End Merge.

(** C10, at a merged layer. *)
Lemma merge_lora_rank_zero_noop_witness :
  lora_rank Examples.merged_layer = 0%Z
  /\ merge_lora Examples.merged_layer = (Examples.merged_layer, Ok tt).
Proof.
  split; [reflexivity | apply (merge_lora_rank_zero_noop Examples.merged_layer); reflexivity].
Defined.

Section Reconstruction.
Context {T : Type} `{Scalar T}.

Lemma zip_with_nth {A B C : Type} (f : A -> B -> C) (da : A) (db : B) (xs : list A) :
  forall ys, List.length ys = List.length xs ->
  zip_with f xs ys = map (fun i => f (nth i xs da) (nth i ys db)) (seq 0 (List.length xs)).
Proof.
  induction xs as [|x xs IH]; intros [|y ys] Hlen; cbn in *; try discriminate; auto.
  f_equal. rewrite <- seq_shift, map_map. apply IH. lia.
Qed.

Lemma length_zip_with {A B C : Type} (f : A -> B -> C) (xs : list A) :
  forall ys, List.length ys = List.length xs ->
  List.length (zip_with f xs ys) = List.length xs.
Proof.
  induction xs as [|x xs IH]; intros [|y ys] Hlen; cbn in *; try discriminate; auto.
Qed.

Lemma nth_map_seq {A : Type} (f : nat -> A) (d : A) (n i : nat) :
  i < n -> nth i (map f (seq 0 n)) d = f i.
Proof.
  intros Hi. rewrite (nth_indep _ d (f 0)) by now rewrite length_map, length_seq.
  rewrite (map_nth f). now rewrite seq_nth.
Qed.

Lemma scale_rows_channelwise (raw : Matrix T) (s : Vector T) :
  List.length s = List.length raw -> scale_rows raw s = channelwise raw s.
Proof.
  intros Hlen. unfold scale_rows, channelwise.
  now rewrite (zip_with_nth _ [] tzero raw s Hlen).
Qed.

(** Entry [(i,j)] of a reconstructed matrix. *)
Lemma channelwise_entry (raw : Matrix T) (s : Vector T) (i j : nat) :
  i < List.length raw -> j < List.length (nth i raw []) ->
  entry (channelwise raw s) i j = tmul (entry raw i j) (nth i s tzero).
Proof.
  intros Hi Hj. unfold entry, channelwise.
  rewrite (nth_map_seq _ [] Hi).
  rewrite (nth_indep _ tzero (tmul tzero (nth i s tzero))) by now rewrite length_map.
  now rewrite (map_nth (fun a => tmul a (nth i s tzero))).
Qed.

Lemma effective_spec (l : Layer T) (raw : Matrix T) (q : option (Vector T)) :
  fits raw q -> effective l raw q = effective_weight_spec (quant l) raw q.
Proof.
  unfold effective, effective_weight_spec, _quantize_weight, fits.
  destruct q as [s|]; [|reflexivity].
  destruct (quant l); cbn; [|reflexivity].
  apply scale_rows_channelwise.
Qed.

Lemma quantize_weight_value (l : Layer T) (t : Tensor T) (q : option (Vector T)) :
  value l (_quantize_weight l t q) = effective l (value l t) q.
Proof.
  unfold effective, _quantize_weight.
  destruct q; [destruct (quant l)|]; reflexivity.
Qed.

(** The value [forward] returns while both factors are present. *)
Lemma forward_output (l : Layer T) (x a b : Matrix T) :
  weight_a l = Some a -> weight_b l = Some b ->
  snd (forward x l) =
  Ok (linear x (compose l (effective l (weight l) (weight_scaler l))
                          (matmul (effective l b (weight_b_scaler l))
                                  (effective l a (weight_a_scaler l))))).
Proof.
  intros Ha Hb. destruct_layer l. subst. unfold compose. run.
  destruct ws, sa, sb, q, d; reflexivity.
Qed.

(** The value [forward] returns once a factor is absent, and the state it
    leaves. *)
Lemma forward_without_adapter (l : Layer T) (x : Matrix T) :
  weight_a l = None \/ weight_b l = None ->
  forward x l = (l, Ok (linear x (effective l (weight l) (weight_scaler l)))).
Proof.
  intros Hn. destruct_layer l. run.
  destruct Hn; subst; destruct ws, q; try destruct wa; try destruct wb; reflexivity.
Qed.

(** The state [forward] leaves when the local name [weight] is bound to the
    stored parameter: line 69 adds the low-rank product into it. *)
Lemma forward_state_aliased (l : Layer T) (x a b : Matrix T) :
  weight_a l = Some a -> weight_b l = Some b -> dora l = false ->
  quant l = false \/ weight_scaler l = None ->
  fst (forward x l) =
  set_weight (madd (weight l) (matmul (effective l b (weight_b_scaler l))
                                      (effective l a (weight_a_scaler l)))) l.
Proof.
  intros Ha Hb Hd Hq. destruct_layer l. subst. run.
  destruct Hq; subst; destruct sa, sb; try destruct ws; try destruct q; reflexivity.
Qed.

(** The state is left as it was when [weight] is bound to a temporary (a
    quantized layer with its scaler) or the DoRA branch is taken. *)
Lemma forward_state_frame (l : Layer T) (x : Matrix T) :
  dora l = true \/ (quant l = true /\ weight_scaler l <> None) ->
  fst (forward x l) = l.
Proof.
  intros Hc. destruct_layer l. run.
  destruct Hc as [Hd | [Hq Hs]]; subst.
  - destruct ws, wa, wb, sa, sb, q; reflexivity.
  - destruct ws; [|congruence]. destruct wa, wb, sa, sb, d; reflexivity.
Qed.

(** C5, as amended. With both factors present (the test of line 60;
    [lora_rank] is not consulted), DoRA off, and each present scaler of
    the length of its tensor's leading dimension, [forward] returns [x]
    times the transpose of (effective weight + effective [weight_b] @
    effective [weight_a]), the three reconstructed from the stored tensors
    and the stored scalers; [lora_scaler] does not enter: the result is
    the same for every value of that field. *)
Theorem forward_additive_unscaled (l : Layer T) (x a b : Matrix T) :
  weight_a l = Some a -> weight_b l = Some b -> dora l = false ->
  fits (weight l) (weight_scaler l) ->
  fits a (weight_a_scaler l) -> fits b (weight_b_scaler l) ->
  snd (forward x l) =
  Ok (linear x
        (madd (effective_weight_spec (quant l) (weight l) (weight_scaler l))
              (matmul (effective_weight_spec (quant l) b (weight_b_scaler l))
                      (effective_weight_spec (quant l) a (weight_a_scaler l)))))
  /\ computes_additive l x
  /\ forall c, snd (forward x (set_lora_scaler c l)) = snd (forward x l).
Proof.
  intros Ha Hb Hd Fw Fa Fb.
  assert (Hout : snd (forward x l) =
    Ok (linear x
          (madd (effective_weight_spec (quant l) (weight l) (weight_scaler l))
                (matmul (effective_weight_spec (quant l) b (weight_b_scaler l))
                        (effective_weight_spec (quant l) a (weight_a_scaler l)))))).
  { rewrite (forward_output l x Ha Hb). unfold compose. rewrite Hd.
    now rewrite !effective_spec by assumption. }
  split; [exact Hout|]. split.
  - exists a, b. auto.
  - intros c. destruct_layer l. subst. run.
    destruct ws, sa, sb, q; reflexivity.
Qed.

(** C9. [_quantize_weight] denotes the raw matrix times the scaler, row
    by row, when the layer is quantized and the scaler is present, and the
    raw matrix (the very object it was given) when the flag is false;
    [forward] reconstructs the base weight, [weight_a] and [weight_b] by
    this one rule. *)
Theorem reconstruction_rule (l : Layer T) (x a b : Matrix T) :
  weight_a l = Some a -> weight_b l = Some b ->
  fits (weight l) (weight_scaler l) ->
  fits a (weight_a_scaler l) -> fits b (weight_b_scaler l) ->
  (forall t q, fits (value l t) q ->
     value l (_quantize_weight l t q) = effective_weight_spec (quant l) (value l t) q)
  /\ (forall t q, quant l = false -> _quantize_weight l t q = t)
  /\ (forall raw s i j, i < List.length raw -> j < List.length (nth i raw []) ->
        entry (effective_weight_spec true raw (Some s)) i j
        = tmul (entry raw i j) (nth i s tzero))
  /\ snd (forward x l) =
     Ok (linear x (compose l
            (effective_weight_spec (quant l) (weight l) (weight_scaler l))
            (matmul (effective_weight_spec (quant l) b (weight_b_scaler l))
                    (effective_weight_spec (quant l) a (weight_a_scaler l))))).
Proof.
  intros Ha Hb Fw Fa Fb. repeat split.
  - intros t q Ft. rewrite quantize_weight_value. now apply effective_spec.
  - intros t q Hq. unfold _quantize_weight. rewrite Hq. now destruct q.
  - intros raw s i j Hi Hj. cbn. now apply channelwise_entry.
  - rewrite (forward_output l x Ha Hb).
    now rewrite !effective_spec by assumption.
Qed.
End Reconstruction.

(** C5 as amended, at a quantized layer whose [weight_b] is rescaled by
    [3; 1]. *)
Lemma forward_additive_unscaled_witness :
  snd (forward [[1; 1]%Z] Examples.rescaled_quant_layer) = Ok [[36; 41]%Z]
  /\ computes_additive Examples.rescaled_quant_layer [[1; 1]%Z]
  /\ forall c, snd (forward [[1; 1]%Z] (set_lora_scaler c Examples.rescaled_quant_layer))
               = snd (forward [[1; 1]%Z] Examples.rescaled_quant_layer).
Proof.
  exact (forward_additive_unscaled Examples.rescaled_quant_layer [[1; 1]%Z]
           (a := [[1; 1]%Z]) (b := [[1]; [2]]%Z)
           eq_refl eq_refl eq_refl eq_refl eq_refl eq_refl).
Defined.

(** C5 as stated fails at the layer a raised merge leaves: [lora_rank] is
    1 and DoRA is off, but the factors are gone, and [forward] returns the
    plain projection. *)
Lemma forward_additive_counterexample :
  (0 < lora_rank Examples.half_merged_layer)%Z
  /\ dora Examples.half_merged_layer = false
  /\ forward [[1]%Z] Examples.half_merged_layer
     = (Examples.half_merged_layer, Ok [[2]%Z])
  /\ ~ computes_additive Examples.half_merged_layer [[1]%Z].
Proof.
  repeat split. intros (a & b & Ha & _). discriminate Ha.
Qed.

(** C9, at the quantized example layer. *)
Lemma reconstruction_rule_witness :
  value Examples.quant_layer
        (_quantize_weight Examples.quant_layer (Stored P_weight) (Some [2; 3]%Z))
  = [[2; 4]; [9; 12]]%Z.
Proof.
  exact (proj1 (reconstruction_rule Examples.quant_layer [[1; 1]%Z]
                  (a := [[1; 1]%Z]) (b := [[1]; [2]]%Z)
                  eq_refl eq_refl eq_refl eq_refl eq_refl)
               (Stored P_weight) (Some [2; 3]%Z) eq_refl).
Defined.

(** ** Freshly constructed layers *)

Section FreshLayer.
Context {T : Type} `{Scalar T}.
Hypothesis mul_zero_l : forall a : T, tmul tzero a = tzero.
Hypothesis add_zero_r : forall a : T, tadd a tzero = a.

Lemma dot_zero_row (u : Vector T) : zero_row u -> forall v, dot u v = tzero.
Proof.
  unfold dot, sum. induction 1 as [|a u Ha Hu IH]; intros [|b v]; cbn; auto.
  subst a. now rewrite mul_zero_l, IH, add_zero_r.
Qed.

Lemma linear_zero_rows (b c : Matrix T) :
  Forall zero_row b -> linear b c = map (fun _ => map (fun _ => tzero) c) b.
Proof.
  intros Hb. unfold linear. induction Hb as [|r b Hr Hb IH]; cbn; auto.
  rewrite IH. f_equal. apply map_ext. intros wr. now apply dot_zero_row.
Qed.

Lemma zip_add_zero_row (v : Vector T) :
  forall z, zero_row z -> List.length v <= List.length z -> zip_with tadd v z = v.
Proof.
  induction v as [|a v IH]; intros z Hz Hlen; [now destruct z|].
  destruct Hz as [|b z Hb Hz]; cbn in *; [lia|].
  subst b. rewrite add_zero_r, IH; auto. lia.
Qed.

Lemma madd_zero_rows (n : nat) (w : Matrix T) :
  forall z, Forall (fun r => List.length r = n) w ->
            Forall (fun r => zero_row r /\ List.length r = n) z ->
            List.length w <= List.length z ->
            madd w z = w.
Proof.
  unfold madd. induction w as [|r w IH]; intros z Hw Hz Hlen; [now destruct z|].
  destruct Hz as [|r' z [Hr' Hn] Hz]; cbn in *; [lia|].
  inversion Hw; subst. rewrite zip_add_zero_row, IH; auto; lia.
Qed.

Lemma length_mk_matrix (r c : nat) (f : nat -> nat -> T) : List.length (mk_matrix r c f) = r.
Proof. unfold mk_matrix. now rewrite length_map, length_seq. Qed.

Lemma rows_mk_matrix (r c : nat) (f : nat -> nat -> T) :
  Forall (fun row => List.length row = c) (mk_matrix r c f).
Proof.
  unfold mk_matrix, mk_vector. apply Forall_forall. intros row Hin.
  apply in_map_iff in Hin. destruct Hin as [i [<- _]]. now rewrite length_map, length_seq.
Qed.

Lemma zero_rows_zeros (r c : nat) : Forall zero_row (zeros r c : Matrix T).
Proof.
  unfold zeros, mk_matrix, mk_vector. apply Forall_forall. intros row Hin.
  apply in_map_iff in Hin. destruct Hin as [i [<- _]].
  apply Forall_forall. intros a Ha. apply in_map_iff in Ha. now destruct Ha as [j [<- _]].
Qed.

Lemma rows_scale_rows (n : nat) (w : Matrix T) :
  forall s, Forall (fun row => List.length row = n) w ->
            Forall (fun row => List.length row = n) (scale_rows w s).
Proof.
  unfold scale_rows. induction w as [|r w IH]; intros [|si s] Hw; cbn; auto.
  inversion Hw; subst. constructor; [now rewrite length_map | now apply IH].
Qed.

Lemma zero_rows_scale_rows (w : Matrix T) :
  forall s, Forall zero_row w -> Forall zero_row (scale_rows w s).
Proof.
  unfold scale_rows. induction w as [|r w IH]; intros [|si s] Hw; cbn; auto.
  inversion Hw; subst. constructor; [|now apply IH].
  apply Forall_forall. intros a Ha. apply in_map_iff in Ha.
  destruct Ha as [a0 [<- Ha0]]. 
  match goal with Hz : zero_row r |- _ => rewrite (proj1 (Forall_forall _ _) Hz a0 Ha0) end.
  apply mul_zero_l.
Qed.

Lemma length_transpose (a : Matrix T) : List.length (transpose a) = ncols a.
Proof. unfold transpose. now rewrite length_map, length_seq. Qed.

(** Adding the product of a zero matrix with anything changes nothing. *)
Lemma madd_matmul_zero (n : nat) (w b a : Matrix T) :
  Forall (fun r => List.length r = n) w -> Forall zero_row b ->
  List.length w <= List.length b -> ncols a = n ->
  madd w (matmul b a) = w.
Proof.
  intros Hw Hb Hlen Hn. unfold matmul. rewrite linear_zero_rows by assumption.
  apply (@madd_zero_rows n); auto.
  - apply Forall_forall. intros r Hr. apply in_map_iff in Hr. destruct Hr as [r0 [<- _]].
    split; [|now rewrite length_map, length_transpose].
    apply Forall_forall. intros c Hc. apply in_map_iff in Hc. now destruct Hc as [c0 [<- _]].
  - now rewrite length_map.
Qed.

Lemma ncols_mk_matrix (r c : nat) (f : nat -> nat -> T) :
  0 < r -> ncols (mk_matrix r c f) = c.
Proof.
  destruct r as [|r]; [lia|]. intros _. unfold mk_matrix, mk_vector. cbn.
  now rewrite length_map, length_seq.
Qed.

Lemma ncols_scale_rows (r c : nat) (f : nat -> nat -> T) (g : nat -> T) :
  0 < r -> ncols (scale_rows (mk_matrix r c f) (mk_vector r g)) = c.
Proof.
  destruct r as [|r]; [lia|]. intros _. unfold mk_matrix, mk_vector. cbn.
  now rewrite !length_map, length_seq.
Qed.

Lemma length_scale_rows (w : Matrix T) (s : Vector T) :
  List.length s = List.length w -> List.length (scale_rows w s) = List.length w.
Proof. intros Hs. unfold scale_rows. now apply length_zip_with. Qed.

Lemma length_mk_vector (n : nat) (f : nat -> T) : List.length (mk_vector n f) = n.
Proof. unfold mk_vector. now rewrite length_map, length_seq. Qed.

(** X7. The no-op at initialisation, DoRA off: a freshly constructed layer
    returns what the base layer returns, and [forward] leaves it as it
    was (the constructor returns only with [quant] off). *)
Lemma forward_fresh_additive (inf outf : nat) (rank : Z) (scaler : T) (q : bool)
      (u : Fresh T) (l : Layer T) (x : Matrix T) :
  (1 <= rank)%Z ->
  LinearWithLoRA_init inf outf rank scaler false q u = Ok l ->
  forward x l = (l, Ok (Linear_forward l x)).
Proof.
  intros Hr Hl. apply init_returns_inv in Hl. destruct Hl as (-> & _ & _ & ->).
  assert (Hpos : 0 < Z.to_nat rank) by lia.
  unfold Linear_forward, Linear_init.
  unfold forward, bind, gets, getattr, ret, iadd, hasattr, _quantize_weight, value,
         weight_quantizer, weight_a_quantizer, weight_b_quantizer, set_weight;
    cbn -[madd matmul linear scale_rows zeros mk_matrix mk_vector row_norms].
  rewrite (@madd_matmul_zero inf); auto.
  - apply rows_mk_matrix.
  - apply zero_rows_zeros.
  - unfold zeros. now rewrite !length_mk_matrix.
  - now apply ncols_mk_matrix.
Qed.

End FreshLayer.

(** ** The DoRA transform over the reals *)

Section Dora.
Open Scope R_scope.

Lemma sum_squares_nonneg (v : Vector R) : 0 <= sum (map (fun a => tmul a a) v).
Proof.
  unfold sum. induction v as [|a v IH]; cbn in *; [lra|].
  pose proof (Rle_0_sqr a) as Ha. unfold Rsqr in Ha. lra.
Qed.

Lemma norm2_nonneg (v : Vector R) : 0 <= norm2 v.
Proof. apply sqrt_pos. Qed.

Lemma sum_squares_pos (v : Vector R) :
  nonzero_row v -> 0 < sum (map (fun a => tmul a a) v).
Proof.
  intros [a [Hin Ha]]. unfold sum.
  induction v as [|b v IH]; cbn in *; [contradiction|].
  pose proof (sum_squares_nonneg v) as Hv. unfold sum in Hv. cbn in Hv.
  pose proof (Rle_0_sqr b) as Hb. unfold Rsqr in Hb.
  destruct Hin as [-> | Hin].
  - assert (0 < a * a) by (apply Rsqr_pos_lt in Ha; exact Ha). lra.
  - specialize (IH Hin). lra.
Qed.

Lemma norm2_pos (v : Vector R) : nonzero_row v -> 0 < norm2 v.
Proof. intros Hv. apply sqrt_lt_R0. now apply sum_squares_pos. Qed.

Lemma sum_squares_scaled (c d : R) (v : Vector R) :
  sum (map (fun a => tmul a a) (map (tmul c) (map (fun a => tdiv a d) v)))
  = Rsqr (c / d) * sum (map (fun a => tmul a a) v).
Proof.
  unfold sum. induction v as [|a v IH]; cbn in *; [lra|].
  rewrite IH. unfold Rsqr, Rdiv. ring.
Qed.

(** A row divided by its norm and multiplied by [c] has norm [|c|]. *)
Lemma norm2_rescaled (c : R) (v : Vector R) :
  norm2 v <> 0 ->
  norm2 (map (tmul c) (map (fun a => tdiv a (norm2 v)) v)) = Rabs c.
Proof.
  intros Hv. unfold norm2 at 1. rewrite sum_squares_scaled.
  rewrite sqrt_mult by (try apply Rle_0_sqr; apply sum_squares_nonneg).
  rewrite sqrt_Rsqr_abs.
  change (sqrt (sum (map (fun a : R => tmul a a) v))) with (norm2 v).
  unfold Rdiv. rewrite Rabs_mult, Rabs_inv.
  rewrite (Rabs_pos_eq (norm2 v)) by apply norm2_nonneg.
  field. exact Hv.
Qed.

Lemma rescaled_row_norms (mm : Vector R) :
  forall num, List.length num = List.length mm ->
  Forall (fun r => norm2 r <> 0) num ->
  row_norms (mul_rows mm (div_rows num (row_norms num))) = map Rabs mm.
Proof.
  induction mm as [|c mm IH]; intros [|r num] Hlen Hnz; cbn in *; try discriminate; auto.
  inversion Hnz; subst. f_equal.
  - now apply norm2_rescaled.
  - apply IH; [lia | assumption].
Qed.

Lemma row_norms_abs (w : Matrix R) : map Rabs (row_norms w) = row_norms w.
Proof.
  unfold row_norms. rewrite map_map. apply map_ext.
  intros r. apply Rabs_pos_eq, norm2_nonneg.
Qed.

(** The DoRA transform returns rows whose norms are [m], when [m] holds
    row norms and no row of the numerator is all zero. *)
Lemma apply_dora_row_norms (l : Layer R) (w lora_weight w0 : Matrix R) :
  m l = row_norms w0 ->
  List.length w = List.length (m l) -> List.length lora_weight = List.length w ->
  Forall nonzero_row (madd w (smul (lora_scaler l) lora_weight)) ->
  row_norms (_apply_dora l w lora_weight) = m l.
Proof.
  intros Hm Hw Hlw Hnz. unfold _apply_dora.
  rewrite rescaled_row_norms.
  - rewrite Hm. apply row_norms_abs.
  - unfold madd, smul. rewrite length_zip_with; [exact Hw | now rewrite length_map].
  - eapply Forall_impl; [|exact Hnz].
    intros r Hr. pose proof (norm2_pos Hr). lra.
Qed.

(** C6. For a layer whose [m] holds the row norms captured at
    construction, the DoRA transform of any weight and any low-rank product
    (well-shaped, no row of [weight + lora_scaler * lora_weight] all zero)
    has row norms [m]; and so has the weight stored by [enable_dora]
    followed by [merge_lora], whatever the factors are. *)
Theorem dora_row_norms (l : Layer R) (w0 a b : Matrix R) :
  m l = row_norms w0 ->
  weight_a l = Some a -> weight_b l = Some b -> (0 < lora_rank l)%Z ->
  List.length (weight l) = List.length (m l) ->
  List.length b = List.length (weight l) ->
  fits b (weight_b_scaler l) ->
  Forall nonzero_row
    (madd (weight l)
          (smul (lora_scaler l)
                (matmul (effective l b (weight_b_scaler l))
                        (effective l a (weight_a_scaler l))))) ->
  (forall w lora_weight,
      List.length w = List.length (m l) -> List.length lora_weight = List.length w ->
      Forall nonzero_row (madd w (smul (lora_scaler l) lora_weight)) ->
      row_norms (_apply_dora l w lora_weight) = m l)
  /\ row_norms (weight (fst ((enable_dora ;; merge_lora) l))) = m l
  /\ m (fst ((enable_dora ;; merge_lora) l)) = m l.
Proof.
  intros Hm Ha Hb Hr Hw Hlb Hfb Hnz. split.
  - intros w lw Hlw Hllw Hnz'. now apply (@apply_dora_row_norms l w lw w0).
  - assert (Hlen : List.length (matmul (effective l b (weight_b_scaler l))
                                       (effective l a (weight_a_scaler l)))
                   = List.length (weight l)).
    { unfold matmul, linear. rewrite length_map.
      unfold effective, _quantize_weight, fits in *.
      destruct (weight_b_scaler l) as [sb|]; [|exact Hlb].
      destruct (quant l); cbn; [|exact Hlb].
      unfold scale_rows. now rewrite length_zip_with. }
    pose proof (@apply_dora_row_norms l (weight l) _ w0 Hm Hw Hlen Hnz) as Hd.
    apply Z.ltb_lt in Hr.
    destruct_layer l. subst wa wb. revert Hd. run. rewrite Hr; cbn.
    destruct sa, sb, q; cbn; intros Hd; split; (exact Hd || reflexivity).
Qed.

(** C6, at the example layer over the reals. *)
Lemma dora_row_norms_witness :
  row_norms (weight (fst ((enable_dora ;; merge_lora) Examples.real_layer)))
  = m Examples.real_layer.
Proof.
  refine (proj1 (proj2 (@dora_row_norms Examples.real_layer
                          [[3; 4]] [[1; 0]] [[1]]
                          eq_refl eq_refl eq_refl eq_refl eq_refl eq_refl I _))).
  constructor; [|constructor].
  eexists. split; [left; reflexivity|].
  unfold dot, sum. cbn. lra.
Defined.
Lemma R_mul_zero_l (a : R) : tmul tzero a = tzero.
Proof. apply Rmult_0_l. Qed.

Lemma R_add_zero_r (a : R) : tadd a tzero = a.
Proof. apply Rplus_0_r. Qed.

Lemma dora_identity (w : Matrix R) :
  Forall (fun r => norm2 r <> 0) w ->
  mul_rows (row_norms w) (div_rows w (row_norms w)) = w.
Proof.
  unfold mul_rows, div_rows, row_norms.
  induction 1 as [|r w Hr Hw IH]; cbn in *; auto.
  rewrite IH. apply (f_equal (fun h => h :: w)). rewrite map_map.
  transitivity (map (fun a : R => a) r); [|apply map_id].
  apply map_ext. intros a. field. exact Hr.
Qed.

Lemma smul_zero_rows (n : nat) (c : R) (z : Matrix R) :
  Forall (fun r => zero_row r /\ List.length r = n) z ->
  Forall (fun r => zero_row r /\ List.length r = n) (smul c z).
Proof.
  unfold smul. induction 1 as [|r z [Hz Hn] Hrest IH]; cbn; constructor; auto.
  split; [|now rewrite length_map].
  apply Forall_forall. intros a Ha. apply in_map_iff in Ha. destruct Ha as [a0 [<- Ha0]].
  rewrite (proj1 (Forall_forall _ _) Hz a0 Ha0). cbn. ring.
Qed.

(** X8. The no-op at initialisation, DoRA on, not quantized, over the reals:
    when no row of the allocated weight is all zero, a freshly constructed
    layer returns what the base layer returns. *)
Lemma forward_fresh_dora (inf outf : nat) (rank : Z) (scaler : R)
      (u : Fresh R) (l : Layer R) (x : Matrix R) :
  (1 <= rank)%Z ->
  LinearWithLoRA_init inf outf rank scaler true false u = Ok l ->
  Forall nonzero_row (weight l) ->
  forward x l = (l, Ok (Linear_forward l x)).
Proof.
  intros Hr Hl Hnz. apply init_returns_inv in Hl. destruct Hl as (_ & _ & _ & ->).
  assert (Hpos : (0 < Z.to_nat rank)%nat) by lia.
  unfold Linear_forward, Linear_init in *.
  unfold forward, bind, gets, getattr, ret, iadd, hasattr, _quantize_weight, value,
         weight_quantizer, weight_a_quantizer, weight_b_quantizer, _apply_dora;
    cbn -[madd matmul linear scale_rows zeros mk_matrix mk_vector row_norms smul
          mul_rows div_rows] in *.
  unfold matmul. rewrite (linear_zero_rows R_mul_zero_l R_add_zero_r (b := zeros outf (Z.to_nat rank)))
    by apply zero_rows_zeros.
  rewrite (@madd_zero_rows _ _ R_add_zero_r inf).
  - rewrite dora_identity; [reflexivity|].
    eapply Forall_impl; [|exact Hnz]. intros r Hrow. pose proof (norm2_pos Hrow). lra.
  - apply rows_mk_matrix.
  - apply smul_zero_rows. apply Forall_forall. intros r Hin.
    apply in_map_iff in Hin. destruct Hin as [r0 [<- _]].
    split.
    + apply Forall_forall. intros c Hc. apply in_map_iff in Hc. now destruct Hc as [c0 [<- _]].
    + rewrite length_map, length_transpose. now apply ncols_mk_matrix.
  - unfold smul, zeros. now rewrite !length_map, !length_mk_matrix.
Qed.
End Dora.

(** ** The code at concrete layers and graphs *)

Section Runs.
Import Examples.
Open Scope Z_scope.

(** C2. On a layer that is not quantized, with DoRA off, the local name
    [weight] of [forward] is the stored parameter and line 69 adds the
    low-rank product into it: the stored weight [[1]] is [[2]] after one
    call, and a second call with the same input returns another value. *)
Theorem forward_mutates_weight_example :
  weight plain_layer = [[1]]
  /\ forward [[5]] plain_layer = (set_weight [[2]] plain_layer, Ok [[10]])
  /\ weight (fst (forward [[5]] plain_layer)) = [[2]]
  /\ forward [[5]] (set_weight [[2]] plain_layer) = (set_weight [[3]] plain_layer, Ok [[15]]).
Proof. repeat split. Qed.

(** C1. On the same layer: [forward] returns [[2]]; [merge_lora] then
    raises [AttributeError] (line 114 deletes [weight_a_scaler], which a
    layer that is not quantized does not have), having added the low-rank
    product once more and deleted the factors, with [lora_rank] still 1;
    [forward] afterwards returns [[3]]. *)
Theorem merge_changes_forward_example :
  forward [[1]] plain_layer = (set_weight [[2]] plain_layer, Ok [[2]])
  /\ merge_lora (set_weight [[2]] plain_layer)
     = (set_weight_b None (set_weight_a None (set_weight [[3]] plain_layer)),
        Raise AttributeError)
  /\ lora_rank (fst (merge_lora (set_weight [[2]] plain_layer))) = 1
  /\ snd (forward [[1]] (fst (merge_lora (set_weight [[2]] plain_layer)))) = Ok [[3]].
Proof. repeat split. Qed.

(** C4. With [quant=True] the constructor returns no layer: for every
    positive rank, whatever the sizes, the scale, the DoRA flag and the
    contents of the storage, it raises [RuntimeError] at line 36 (the int8
    tensor handed to [nn.Parameter]). With [quant=False] and otherwise the
    same arguments it returns the layer whose [forward] is the base
    layer's. *)
Theorem fresh_quantized_raises :
  (forall (inf outf : nat) (p : positive) (scaler : Z) (use_dora : bool) (u : Fresh Z),
      LinearWithLoRA_init inf outf (Z.pos p) scaler use_dora true u = Raise RuntimeError)
  /\ LinearWithLoRA_init 1 1 1 32 true true ones_twos = Raise RuntimeError
  /\ LinearWithLoRA_init 1 1 1 32 false true ones_twos = Raise RuntimeError
  /\ exists l,
       LinearWithLoRA_init 1 1 1 32 false false ones_twos = Ok l
       /\ forward [[1]] l = (l, Ok [[1]])
       /\ Linear_forward l [[1]] = [[1]].
Proof. repeat split. eexists; repeat split. Qed.

(** C3. A second [switch_to_lora] with the same names replaces the
    adapter installed by the first (an instance of [LinearWithLoRA] is an
    instance of [Linear]): the module at [attn.qkv_proj] is a new object
    with a newly drawn [weight_a]. *)
Theorem switch_to_lora_twice_example :
  switch_to_lora alloc None 1 32 false host = (host_with (installed 4 false) 5, Ok tt)
  /\ switch_to_lora alloc None 1 32 false (host_with (installed 4 false) 5)
     = (host_with (installed 5 false) 6, Ok tt)
  /\ weight_a (installed_layer 4 false) = Some [[4; 4]]
  /\ weight_a (installed_layer 5 false) = Some [[5; 5]]
  /\ model (host_with (installed 5 false) 6) <> model (host_with (installed 4 false) 5).
Proof. repeat split. discriminate. Qed.

(** C7. The adapter installed for a base layer of weight [[3; 4]] (row
    norm 5) has [m = [0]], the row norm of the storage the constructor
    allocated, computed at line 51 before line 148 copies the weight. *)
Theorem switch_to_lora_magnitude_example :
  switch_to_lora alloc None 1 32 true host = (host_with (installed 4 true) 5, Ok tt)
  /\ weight (installed_layer 4 true) = [[3; 4]]
  /\ row_norms (weight (installed_layer 4 true)) = [5]
  /\ m (installed_layer 4 true) = [0]
  /\ m (installed_layer 4 true) = row_norms (mk_matrix 1 2 (empty_weight (alloc 4))).
Proof. repeat split. Qed.

(** A name matched by two of the target substrings: the second match looks
    for the parent of a module that is no longer in the graph, and the pass
    stops with [AttributeError] after the first replacement. *)
Lemma switch_to_lora_two_matches_example :
  switch_to_lora alloc (Some ["qkv"; "proj"]%string) 1 32 false host
  = (host_with (installed 4 false) 6, Raise AttributeError).
Proof. reflexivity. Qed.
End Runs.

(** ** Further properties of the layer *)

Section LayerFacts.
Context {T : Type} `{Scalar T}.

(** X12. A merge with [lora_rank > 0] on a layer that has lost a factor raises
    [AttributeError] when it reads the factor (lines 103-104), before it
    changes anything. *)
Theorem merge_lora_without_factor_raises (l : Layer T) :
  (0 < lora_rank l)%Z -> weight_a l = None \/ weight_b l = None ->
  merge_lora l = (l, Raise AttributeError).
Proof.
  intros Hr Hn. apply Z.ltb_lt in Hr. destruct_layer l. run. rewrite Hr; cbn.
  destruct Hn; subst; try destruct wa; try destruct wb; try destruct sa; destruct q;
    reflexivity.
Qed.

(** X14. When the stored weight is not rescaled (the layer is not quantized or
    has no [weight_scaler]), the layer a merge leaves returns what the
    layer before the merge returned, DoRA on or off, also when the merge
    raised at line 114. *)
Theorem merge_lora_keeps_output (l : Layer T) (x a b : Matrix T) :
  (0 < lora_rank l)%Z -> weight_a l = Some a -> weight_b l = Some b ->
  quant l = false \/ weight_scaler l = None ->
  snd (forward x (fst (merge_lora l))) = snd (forward x l).
Proof.
  intros Hr Ha Hb Hq. apply Z.ltb_lt in Hr. destruct_layer l. subst. run.
  rewrite Hr; cbn.
  destruct Hq; subst; destruct d, sa, sb; try destruct ws; try destruct q; reflexivity.
Qed.

(** X2. The only attribute [forward] can change is the stored weight:
    the layer it leaves is the layer it was given, up to [weight]. No line
    of [forward] assigns or deletes an attribute, and the one in-place
    operation (line 69) is on the local weight. *)
Theorem forward_frame (l : Layer T) (x : Matrix T) :
  exists w', fst (forward x l) = set_weight w' l.
Proof.
  destruct_layer l. run.
  destruct ws, wa, wb, sa, sb, q, d; cbn; eexists; reflexivity.
Qed.

(** X4. Not quantized, DoRA off: every call of [forward] adds the low-rank
    product to the stored weight once more. After [n] calls the weight is
    the initial one plus [n] times the product, and nothing else has
    changed. *)
Theorem forward_accumulates (l : Layer T) (x a b : Matrix T) (n : nat) :
  weight_a l = Some a -> weight_b l = Some b -> dora l = false ->
  quant l = false \/ weight_scaler l = None ->
  Nat.iter n (fun s => fst (forward x s)) l =
  set_weight
    (Nat.iter n (fun w => madd w (matmul (effective l b (weight_b_scaler l))
                                         (effective l a (weight_a_scaler l))))
              (weight l)) l.
Proof.
  intros Ha Hb Hd Hq. induction n as [|n IH].
  - now destruct_layer l.
  - rewrite !Nat.iter_succ, IH.
    rewrite (@forward_state_aliased _ _ (set_weight _ l) x a b Ha Hb Hd Hq).
    unfold effective, _quantize_weight, set_weight. cbn.
    destruct (weight_a_scaler l), (weight_b_scaler l), (quant l); reflexivity.
Qed.

(** X9. [enable_dora] followed by [forward]: the DoRA branch is taken, the
    stored weight is not touched, and only the flag has changed. *)
Theorem enable_dora_forward (l : Layer T) (x a b : Matrix T) :
  weight_a l = Some a -> weight_b l = Some b ->
  (enable_dora ;; forward x) l =
  (set_dora true l,
   Ok (linear x (_apply_dora l (effective l (weight l) (weight_scaler l))
                             (matmul (effective l b (weight_b_scaler l))
                                     (effective l a (weight_a_scaler l)))))).
Proof.
  intros Ha Hb. destruct_layer l. subst. run.
  destruct ws, sa, sb, q; reflexivity.
Qed.

(** X3. [forward] leaves the layer exactly as it was when DoRA is on, or
    when the layer is quantized and has its [weight_scaler]: the local
    weight is then a temporary. *)
Theorem forward_keeps_layer (l : Layer T) (x : Matrix T) :
  dora l = true \/ (quant l = true /\ weight_scaler l <> None) ->
  fst (forward x l) = l.
Proof. apply forward_state_frame. Qed.

(** X5. Once a factor is absent (after a merge, also one that raised at
    line 114), [forward] is the plain projection with the reconstructed
    weight and leaves the layer as it was, whatever [lora_rank] and the
    DoRA flag are. *)
Theorem forward_plain_without_adapter (l : Layer T) (x : Matrix T) :
  weight_a l = None \/ weight_b l = None ->
  forward x l = (l, Ok (linear x (effective l (weight l) (weight_scaler l)))).
Proof. apply forward_without_adapter. Qed.
End LayerFacts.

(** ** Shapes *)

Section ShapeFacts.
Context {T : Type} `{Scalar T}.

Lemma length_madd (a b : Matrix T) :
  List.length b = List.length a -> List.length (madd a b) = List.length a.
Proof. apply length_zip_with. Qed.

Lemma length_matmul (b a : Matrix T) : List.length (matmul b a) = List.length b.
Proof. unfold matmul, linear. apply length_map. Qed.

Lemma length_effective (l : Layer T) (raw : Matrix T) (q : option (Vector T)) :
  fits raw q -> List.length (effective l raw q) = List.length raw.
Proof.
  unfold effective, _quantize_weight, fits. destruct q as [s|]; [|reflexivity].
  destruct (quant l); cbn; [|reflexivity]. intros Hs. now apply length_zip_with.
Qed.

Lemma length_apply_dora (l : Layer T) (w lw : Matrix T) :
  List.length lw = List.length w -> List.length (m l) = List.length w ->
  List.length (_apply_dora l w lw) = List.length w.
Proof.
  intros Hlw Hm. unfold _apply_dora, mul_rows, div_rows, row_norms.
  assert (Hn : List.length (madd w (smul (lora_scaler l) lw)) = List.length w).
  { apply length_madd. unfold smul. now rewrite length_map. }
  rewrite length_zip_with; [exact Hm|].
  rewrite length_zip_with; [congruence | now rewrite length_map].
Qed.

Lemma length_compose (l : Layer T) (w lw : Matrix T) :
  List.length lw = List.length w -> List.length (m l) = List.length w ->
  List.length (compose l w lw) = List.length w.
Proof.
  intros Hlw Hm. unfold compose. destruct (dora l).
  - now apply length_apply_dora.
  - now apply length_madd.
Qed.

Lemma rows_linear (x w : Matrix T) :
  Forall (fun r => List.length r = List.length w) (linear x w).
Proof.
  unfold linear. apply Forall_forall. intros r Hr. apply in_map_iff in Hr.
  destruct Hr as [xr [<- _]]. apply length_map.
Qed.

(** X1. The constructor returns a well-shaped layer: the weight is
    [out_features] by [in_features], [weight_a] is [rank] by [in_features],
    [weight_b] is [out_features] by [rank] and all zeros, [m] has one entry
    per output row, and the scalers exist exactly when [quant] is set. *)
Theorem init_shapes (inf outf : nat) (rank : Z) (scaler : T) (use_dora q : bool)
        (u : Fresh T) (l : Layer T) :
  LinearWithLoRA_init inf outf rank scaler use_dora q u = Ok l ->
  well_shaped l
  /\ in_features l = inf /\ out_features l = outf /\ (1 <= lora_rank l)%Z
  /\ Forall (fun r => List.length r = inf) (weight l)
  /\ (exists a, weight_a l = Some a /\ List.length a = Z.to_nat rank
                /\ Forall (fun r => List.length r = inf) a)
  /\ (exists b, weight_b l = Some b /\ Forall zero_row b
                /\ Forall (fun r => List.length r = Z.to_nat rank) b)
  /\ (weight_scaler l <> None <-> q = true)
  /\ (weight_a_scaler l <> None <-> q = true)
  /\ (weight_b_scaler l <> None <-> q = true).
Proof.
  intros Hl. apply init_returns_inv in Hl. destruct Hl as (-> & Hr & Hi & ->).
  unfold well_shaped, fits, zeros. cbn.
  rewrite !length_mk_matrix. unfold row_norms. rewrite length_map, length_mk_matrix.
  assert (Hiff : (@None (Vector T) <> None) <-> false = true)
    by (split; [intros Hn; now contradiction Hn | discriminate]).
  repeat match goal with |- _ /\ _ => split end;
    try reflexivity; try lia; try exact I; try exact Hiff.
  - apply rows_mk_matrix.
  - eexists. repeat split; [apply length_mk_matrix | apply rows_mk_matrix].
  - eexists. repeat split; [apply zero_rows_zeros | apply rows_mk_matrix].
Qed.

(** The value and the state of the embedded [forward] on a well-shaped
    layer (the shape errors of torch are outside the embedding). *)
Lemma forward_shape_of_result (l : Layer T) (x : Matrix T) :
  well_shaped l ->
  exists l' y, forward x l = (l', Ok y)
               /\ well_shaped l'
               /\ List.length y = List.length x
               /\ Forall (fun r => List.length r = out_features l) y.
Proof.
  intros (Hw & Hm & Hfw & Hb).
  assert (Hlin : forall w, List.length w = out_features l ->
                 List.length (linear x w) = List.length x
                 /\ Forall (fun r => List.length r = out_features l) (linear x w)).
  { intros w Hlen. split; [apply length_map|]. rewrite <- Hlen. apply rows_linear. }
  destruct (weight_a l) as [a|] eqn:Ea; [destruct (weight_b l) as [b|] eqn:Eb|].
  - destruct Hb as [Hlb Hfb].
    pose proof (forward_output l x Ea Eb) as Hout.
    set (lw := matmul (effective l b (weight_b_scaler l))
                      (effective l a (weight_a_scaler l))) in *.
    assert (Hlw : List.length lw = out_features l).
    { unfold lw. now rewrite length_matmul, length_effective. }
    assert (Hwe : List.length (effective l (weight l) (weight_scaler l)) = out_features l).
    { now rewrite length_effective. }
    assert (Hc : List.length (compose l (effective l (weight l) (weight_scaler l)) lw)
                 = out_features l).
    { rewrite length_compose; congruence. }
    exists (fst (forward x l)), (linear x (compose l (effective l (weight l) (weight_scaler l)) lw)).
    split; [rewrite <- Hout; apply surjective_pairing|].
    split; [|now apply Hlin].
    destruct (dora l) eqn:Ed.
    { rewrite forward_state_frame by now left.
      unfold well_shaped. rewrite Eb. auto. }
    destruct (quant l) eqn:Eq; [destruct (weight_scaler l) as [s|] eqn:Es|].
    + rewrite forward_state_frame by (right; split; [assumption | congruence]).
      unfold well_shaped. rewrite Eb, Es. auto.
    + rewrite (forward_state_aliased l x Ea Eb Ed) by now right.
      fold lw. unfold well_shaped, fits. cbn. rewrite Eb, Es.
      rewrite length_madd by congruence. auto.
    + rewrite (forward_state_aliased l x Ea Eb Ed) by now left.
      fold lw. unfold well_shaped. cbn. rewrite Eb.
      rewrite length_madd by congruence.
      repeat split; auto.
      unfold fits in *. destruct (weight_scaler l); [|exact I].
      rewrite length_madd by congruence. exact Hfw.
  - rewrite forward_without_adapter by now right.
    exists l, (linear x (effective l (weight l) (weight_scaler l))).
    split; [reflexivity|]. split; [unfold well_shaped; rewrite Eb; auto|].
    apply Hlin. now rewrite length_effective.
  - rewrite forward_without_adapter by now left.
    exists l, (linear x (effective l (weight l) (weight_scaler l))).
    split; [reflexivity|]. split; [unfold well_shaped; auto|].
    apply Hlin. now rewrite length_effective.
Qed.

(** X6. What [forward] returns on a well-shaped layer has one row per
    row of the input, each with [out_features] entries, and the layer it
    leaves is well-shaped. *)
Theorem forward_shape (l l' : Layer T) (x y : Matrix T) :
  well_shaped l -> forward x l = (l', Ok y) ->
  well_shaped l'
  /\ List.length y = List.length x
  /\ Forall (fun r => List.length r = out_features l) y.
Proof.
  intros Hw Hf. destruct (forward_shape_of_result x Hw) as (l0 & y0 & Hf0 & Hs).
  rewrite Hf in Hf0. inversion Hf0; subst. exact Hs.
Qed.

Lemma merge_lora_state (l : Layer T) (a b : Matrix T) :
  (0 < lora_rank l)%Z -> weight_a l = Some a -> weight_b l = Some b ->
  weight (fst (merge_lora l))
  = compose l (weight l) (matmul (effective l b (weight_b_scaler l))
                                 (effective l a (weight_a_scaler l)))
  /\ m (fst (merge_lora l)) = m l
  /\ out_features (fst (merge_lora l)) = out_features l
  /\ weight_scaler (fst (merge_lora l)) = weight_scaler l
  /\ weight_b (fst (merge_lora l)) = None.
Proof.
  intros Hr Ha Hb. apply Z.ltb_lt in Hr. destruct_layer l. subst. unfold compose. run.
  rewrite Hr; cbn. destruct d, sa, sb, q; cbn; repeat split.
Qed.

Lemma merge_lora_no_factor (l : Layer T) :
  (0 < lora_rank l)%Z -> weight_a l = None \/ weight_b l = None ->
  merge_lora l = (l, Raise AttributeError).
Proof.
  intros Hr Hn. apply Z.ltb_lt in Hr. destruct_layer l. run. rewrite Hr; cbn.
  destruct Hn; subst; try destruct wa; try destruct wb; try destruct sa; destruct q;
    reflexivity.
Qed.

(** X15. [merge_lora] leaves a well-shaped layer well-shaped, whether it
    returns or raises. *)
Theorem merge_lora_shape (l : Layer T) :
  well_shaped l -> well_shaped (fst (merge_lora l)).
Proof.
  intros (Hw & Hm & Hfw & Hb).
  destruct (0 <? lora_rank l)%Z eqn:Er.
  2:{ unfold merge_lora, bind, gets. rewrite Er. cbn. unfold well_shaped. auto. }
  apply Z.ltb_lt in Er.
  destruct (weight_a l) as [a|] eqn:Ea; [destruct (weight_b l) as [b|] eqn:Eb|].
  - destruct Hb as [Hlb Hfb].
    destruct (merge_lora_state l Er Ea Eb) as (E1 & E2 & E3 & E4 & E5).
    assert (Hc : List.length (weight (fst (merge_lora l))) = out_features l).
    { rewrite E1, length_compose; try congruence.
      rewrite length_matmul, length_effective; congruence. }
    unfold well_shaped. rewrite E2, E3, E4, E5. repeat split; auto.
    unfold fits in *. destruct (weight_scaler l); [congruence | exact I].
  - rewrite merge_lora_no_factor;
      [cbn [fst]; unfold well_shaped; rewrite Eb; auto | easy | now right].
  - rewrite merge_lora_no_factor; [cbn [fst]; unfold well_shaped; auto | easy | now left].
Qed.
End ShapeFacts.

(** ** The module graph *)

Section GraphFacts.
Context {T : Type} `{Scalar T}.

(** Induction on a module with the property for all its children. *)
Lemma NNModule_induct (P : NNModule T -> Prop) :
  (forall i k cs, Forall (fun nc => P (snd nc)) cs -> P (Node i k cs)) ->
  forall n, P n.
Proof.
  intros Hnode. fix IH 1. intros [i k cs]. apply Hnode.
  induction cs as [|[name c] cs IHcs]; constructor; [apply IH | exact IHcs].
Qed.

Lemma get_parent_model_inv (i : nat) (k : Kind T) (cs : list (string * NNModule T))
      (t p : nat) :
  get_parent_model (Node i k cs) t = Some p ->
  (p = i /\ has_child (Node i k cs) t)
  \/ (exists name c, In (name, c) cs /\ get_parent_model c t = Some p).
Proof.
  unfold has_child. cbn. induction cs as [|[name c] cs IH]; cbn; [discriminate|].
  destruct (ident_of c =? t) eqn:E.
  - intros [= <-]. apply Nat.eqb_eq in E. left. split; [reflexivity|].
    exists name, c. auto.
  - destruct (get_parent_model c t) as [p'|] eqn:Ec.
    + intros [= <-]. right. exists name, c. auto.
    + intros Hs. destruct (IH Hs) as [[-> (n' & c' & Hin & Hid)] | (n' & c' & Hin & Hg)].
      * left. split; [reflexivity|]. exists n', c'. auto.
      * right. exists n', c'. auto.
Qed.

Lemma get_parent_model_intro (i : nat) (k : Kind T) (cs : list (string * NNModule T))
      (t : nat) (name : string) (c : NNModule T) :
  In (name, c) cs ->
  ident_of c = t \/ (exists p, get_parent_model c t = Some p) ->
  exists p, get_parent_model (Node i k cs) t = Some p.
Proof.
  cbn. induction cs as [|[name' c'] cs IH]; cbn; [contradiction|].
  intros Hin Hc.
  destruct (ident_of c' =? t) eqn:E; [eauto|].
  destruct (get_parent_model c' t) as [p'|] eqn:Ec; [eauto|].
  destruct Hin as [Heq | Hin]; [|now apply IH].
  inversion Heq; subst. destruct Hc as [Hid | [p Hp]].
  - apply Nat.eqb_neq in E. contradiction.
  - congruence.
Qed.

(** X16. What [get_parent_model] returns is the identity of a module of
    the graph that has [module] among its direct children. *)
Theorem get_parent_model_sound (n : NNModule T) (t p : nat) :
  get_parent_model n t = Some p ->
  exists s, InTree s n /\ ident_of s = p /\ has_child s t.
Proof.
  revert p. induction n as [i k cs IH] using NNModule_induct. intros p Hg.
  apply get_parent_model_inv in Hg.
  destruct Hg as [[-> Hc] | (name & c & Hin & Hg)].
  - exists (Node i k cs). repeat split; [constructor | exact Hc].
  - rewrite Forall_forall in IH. destruct (IH _ Hin p Hg) as (s & Hs & Hid & Hc).
    exists s. repeat split; auto. eapply InTree_child; eauto.
Qed.

Lemma get_parent_model_finds (n s : NNModule T) (t : nat) :
  InTree s n -> has_child s t ->
  exists p, get_parent_model n t = Some p.
Proof.
  intros Hs Hc. induction Hs as [n | s i k cs name c Hin Hs IH].
  - destruct n as [i k cs]. destruct Hc as (name & c & Hin & Hid).
    eapply get_parent_model_intro; [exact Hin | now left].
  - eapply get_parent_model_intro; [exact Hin | right; now apply IH].
Qed.

(** X17. [get_parent_model] returns [None] only when no module of the
    graph has [module] among its direct children. *)
Theorem get_parent_model_complete (n s : NNModule T) (t : nat) :
  InTree s n -> has_child s t ->
  get_parent_model n t <> None.
Proof.
  intros Hs Hc. destruct (get_parent_model_finds Hs Hc) as [p Hp]. congruence.
Qed.

Lemma named_modules_below (n : NNModule T) :
  forall prefix nm, In nm (named_modules prefix n) ->
  snd nm = n \/ exists s, InTree s n /\ has_child s (ident_of (snd nm)).
Proof.
  induction n as [i k cs IH] using NNModule_induct. intros prefix nm Hin.
  cbn in Hin. destruct Hin as [<- | Hin]; [now left|]. right.
  assert (Hsub : exists name c, In (name, c) cs
                                /\ In nm (named_modules (qualified prefix name) c)).
  { clear IH. induction cs as [|[name c] cs IHcs]; cbn in Hin; [contradiction|].
    apply in_app_or in Hin. destruct Hin as [Hin | Hin].
    - exists name, c. split; [now left | exact Hin].
    - destruct (IHcs Hin) as (name' & c' & Hin' & Hnm).
      exists name', c'. split; [now right | exact Hnm]. }
  destruct Hsub as (name & c & Hc & Hnm).
  rewrite Forall_forall in IH. destruct (IH _ Hc _ _ Hnm) as [Heq | (s & Hs & Hch)].
  - exists (Node i k cs). split; [constructor|].
    exists name, c. split; [exact Hc | now rewrite Heq].
  - exists s. split; [eapply InTree_child; eauto | exact Hch].
Qed.

(** X18. For every module [named_modules] yields after the model itself,
    [get_parent_model] finds a parent. *)
Theorem get_parent_model_of_named (n : NNModule T) (prefix : string)
        (nm : string * NNModule T) :
  In nm (tl (named_modules prefix n)) ->
  exists p, get_parent_model n (ident_of (snd nm)) = Some p.
Proof.
  intros Hin.
  assert (Hall : In nm (named_modules prefix n)).
  { destruct n; cbn in *. now right. }
  destruct n as [i k cs].
  assert (Hsub : exists s, InTree s (Node i k cs) /\ has_child s (ident_of (snd nm))).
  { cbn in Hin.
    assert (Hc : exists name c, In (name, c) cs
                                /\ In nm (named_modules (qualified prefix name) c)).
    { clear Hall. induction cs as [|[name c] cs IHcs]; cbn in Hin; [contradiction|].
      apply in_app_or in Hin. destruct Hin as [Hin | Hin].
      - exists name, c. split; [now left | exact Hin].
      - destruct (IHcs Hin) as (name' & c' & Hin' & Hnm).
        exists name', c'. split; [now right | exact Hnm]. }
    destruct Hc as (name & c & Hc & Hnm).
    destruct (named_modules_below c _ _ Hnm) as [Heq | (s & Hs & Hch)].
    - exists (Node i k cs). split; [constructor|].
      exists name, c. split; [exact Hc | now rewrite Heq].
    - exists s. split; [eapply InTree_child; eauto | exact Hch]. }
  destruct Hsub as (s & Hs & Hch). eapply get_parent_model_finds; eauto.
Qed.
End GraphFacts.

(** ** The graph rewrite *)

Section RewriteFacts.
Context {T : Type} `{Scalar T}.
Variable alloc : nat -> Fresh T.

Lemma for_each_skip {S A : Type} (xs : list A) (body : A -> M S unit) (s : S) :
  (forall x, In x xs -> body x s = (s, Ok tt)) ->
  for_each xs body s = (s, Ok tt).
Proof.
  induction xs as [|x xs IH]; intros Hb; cbn; [reflexivity|].
  unfold bind. rewrite (Hb x (or_introl eq_refl)). apply IH.
  intros y Hy. apply Hb. now right.
Qed.

Lemma for_each_invariant {S A : Type} (P : S -> Prop) (xs : list A)
      (body : A -> M S unit) :
  (forall x s, P s -> P (fst (body x s))) ->
  forall s, P s -> P (fst (for_each xs body s)).
Proof.
  intros Hb. induction xs as [|x xs IH]; intros s Hs; cbn; [exact Hs|].
  unfold bind. specialize (Hb x s Hs). destruct (body x s) as [s' [[]|e]]; cbn in *.
  - now apply IH.
  - exact Hb.
Qed.

Lemma replace_module_skip (rank : Z) (sc : T) (d : bool) (name r : string)
      (module : NNModule T) (w : World T) :
  isinstance_Linear module = false \/ contains r name = false ->
  replace_module alloc rank sc d name module r w = (w, Ok tt).
Proof.
  unfold replace_module, isinstance_Linear.
  destruct (as_Linear module); intros [Hi | Hc]; try discriminate; try reflexivity.
  now rewrite Hc.
Qed.

Lemma matches_false (names : list string) (nm : string * NNModule T) :
  matches names nm = false ->
  forall r, In r names ->
  isinstance_Linear (snd nm) = false \/ contains r (fst nm) = false.
Proof.
  unfold matches. intros Hm r Hr. apply andb_false_iff in Hm.
  destruct Hm as [Hi | He]; [now left | right].
  destruct (contains r (fst nm)) eqn:E; [|reflexivity].
  assert (existsb (fun r => contains r (fst nm)) names = true)
    by (apply existsb_exists; eauto).
  congruence.
Qed.

(** X19. When no module of the graph is a [Linear] whose qualified name
    contains one of the names, [switch_to_lora] returns normally and leaves
    the graph as it was. *)
Theorem switch_to_lora_no_match (replace_names : option (list string))
        (rank : Z) (sc : T) (d : bool) (w : World T) :
  (forall nm, In nm (named_modules "" (model w)) ->
              matches (names_of replace_names) nm = false) ->
  switch_to_lora alloc replace_names rank sc d w = (w, Ok tt).
Proof.
  intros Hno. unfold switch_to_lora. apply for_each_skip.
  intros nm Hnm. apply for_each_skip. intros r Hr.
  apply replace_module_skip. apply (matches_false _ _ (Hno nm Hnm)). exact Hr.
Qed.

Lemma replace_module_rank_zero (sc : T) (d : bool) (name r : string)
      (module : NNModule T) (w : World T) :
  replace_module alloc 0 sc d name module r w =
  (w, if isinstance_Linear module && contains r name
      then Raise ZeroDivisionError else Ok tt).
Proof.
  unfold replace_module, isinstance_Linear.
  destruct (as_Linear module); [|reflexivity].
  destruct (contains r name); reflexivity.
Qed.

Lemma for_each_raise_first {S A : Type} (e : Exn) (hit : A -> bool) (xs : list A)
      (body : A -> M S unit) (s : S) :
  (forall x, body x s = (s, if hit x then Raise e else Ok tt)) ->
  for_each xs body s = (s, if existsb hit xs then Raise e else Ok tt).
Proof.
  intros Hb. induction xs as [|x xs IH]; cbn; [reflexivity|].
  unfold bind. rewrite (Hb x). destruct (hit x); cbn; [reflexivity | exact IH].
Qed.

(** X20. With [rank = 0] the graph is never changed: [switch_to_lora]
    raises [ZeroDivisionError] at the first module it would replace, and
    returns normally when there is none. *)
Theorem switch_to_lora_rank_zero (replace_names : option (list string))
        (sc : T) (d : bool) (w : World T) :
  switch_to_lora alloc replace_names 0 sc d w =
  (w, if existsb (matches (names_of replace_names)) (named_modules "" (model w))
      then Raise ZeroDivisionError else Ok tt).
Proof.
  unfold switch_to_lora.
  apply (for_each_raise_first ZeroDivisionError (matches (names_of replace_names))).
  intros nm. unfold matches.
  destruct (isinstance_Linear (snd nm)) eqn:Ei; cbn.
  - apply (for_each_raise_first ZeroDivisionError (fun r => contains r (fst nm))).
    intros r. rewrite replace_module_rank_zero. now rewrite Ei.
  - apply for_each_skip. intros r _. apply replace_module_skip. now left.
Qed.

Lemma set_child_root (parent module : nat) (new n : NNModule T) :
  ident_of (set_child parent module new n) = ident_of n
  /\ kind_of (set_child parent module new n) = kind_of n
  /\ map fst (_modules (set_child parent module new n)) = map fst (_modules n).
Proof.
  destruct n as [i k cs]. cbn. destruct (i =? parent); cbn; repeat split.
  - induction cs as [|[name c] cs IH]; cbn; [reflexivity|].
    destruct (ident_of c =? module); cbn; [reflexivity | now rewrite IH].
  - induction cs as [|[name c] cs IH]; cbn; [reflexivity | now rewrite IH].
Qed.

(** X21. The model itself is never replaced, and its direct children keep
    their names, whether [switch_to_lora] returns or raises. *)
Theorem switch_to_lora_keeps_root (replace_names : option (list string))
        (rank : Z) (sc : T) (d : bool) (w : World T) :
  let w' := fst (switch_to_lora alloc replace_names rank sc d w) in
  ident_of (model w') = ident_of (model w)
  /\ kind_of (model w') = kind_of (model w)
  /\ map fst (_modules (model w')) = map fst (_modules (model w)).
Proof.
  set (P := fun s : World T =>
              ident_of (model s) = ident_of (model w)
              /\ kind_of (model s) = kind_of (model w)
              /\ map fst (_modules (model s)) = map fst (_modules (model w))).
  change (P (fst (switch_to_lora alloc replace_names rank sc d w))).
  unfold switch_to_lora. apply for_each_invariant; [|now unfold P].
  intros nm. apply for_each_invariant.
  intros r s Hs. unfold replace_module.
  destruct (as_Linear (snd nm)) as [b|]; [|exact Hs].
  destruct (contains r (fst nm)); [|exact Hs].
  destruct (LinearWithLoRA_init _ _ _ _ _ _ _) as [fresh_layer|e]; [|exact Hs].
  destruct (quant b); [destruct (weight_scaler b)|]; cbn; try exact Hs;
    destruct (get_parent_model (model s) (ident_of (snd nm))); cbn; try exact Hs;
    unfold P in *; cbn;
    destruct (set_child_root n (ident_of (snd nm))
                (Node (next_ident s) (KLinearWithLoRA
                   (set_weight_scaler (Some v) (set_weight (weight b) fresh_layer))) [])
                (model s)) as (E1 & E2 & E3)
      || destruct (set_child_root n (ident_of (snd nm))
                (Node (next_ident s) (KLinearWithLoRA
                   (set_weight (weight b) fresh_layer)) [])
                (model s)) as (E1 & E2 & E3);
    destruct Hs as (H1 & H2 & H3); repeat split; congruence.
Qed.

Lemma replace_module_orphan (rank : Z) (sc : T) (d : bool) (name r : string)
      (module : NNModule T) (b : Linear T) (w : World T) :
  (1 <= rank)%Z -> as_Linear module = Some b -> contains r name = true ->
  quant b = false -> in_features b <> 0%nat ->
  get_parent_model (model w) (ident_of module) = None ->
  replace_module alloc rank sc d name module r w =
  ({| model := model w; next_ident := S (next_ident w) |}, Raise AttributeError).
Proof.
  intros Hr Hb Hc Hq Hi Hp. unfold replace_module. rewrite Hb, Hc, Hq.
  destruct (init_positive_rank (out_features b) sc d
              (alloc (next_ident w)) Hr Hi) as (l & -> & _).
  cbn [model next_ident]. now rewrite Hp.
Qed.

(** For a quantized base layer the constructor call of line 141 raises
    [RuntimeError], and the graph is as it was. *)
Lemma replace_module_quantized_raises (rank : Z) (sc : T) (d : bool) (name r : string)
      (module : NNModule T) (b : Linear T) (w : World T) :
  rank <> 0%Z -> as_Linear module = Some b -> contains r name = true ->
  quant b = true ->
  replace_module alloc rank sc d name module r w = (w, Raise RuntimeError).
Proof.
  intros Hr Hb Hc Hq. unfold replace_module. rewrite Hb, Hc, Hq.
  now rewrite init_quantized_raises.
Qed.

(** X22. A model that is itself a [Linear], not quantized and with at
    least one input feature, whose name (the empty string) is matched: the
    constructor returns, the parent lookup returns [None] and
    [switch_to_lora] raises [AttributeError], the model unchanged. *)
Theorem switch_to_lora_root_linear (replace_names : option (list string))
        (rank : Z) (sc : T) (d : bool) (w : World T) (b : Linear T) :
  (1 <= rank)%Z ->
  as_Linear (model w) = Some b -> _modules (model w) = [] ->
  quant b = false -> in_features b <> 0%nat ->
  existsb (fun r => contains r "") (names_of replace_names) = true ->
  switch_to_lora alloc replace_names rank sc d w =
  ({| model := model w; next_ident := S (next_ident w) |}, Raise AttributeError).
Proof.
  intros Hr Hb Hcs Hq Hi Hex. unfold switch_to_lora.
  fold (names_of replace_names).
  assert (Hnm : named_modules "" (model w) = [(""%string, model w)]).
  { destruct w as [[i k cs] nx]. cbn in Hcs. subst cs. reflexivity. }
  assert (Hp : get_parent_model (model w) (ident_of (model w)) = None).
  { destruct w as [[i k cs] nx]. cbn in Hcs. subst cs. reflexivity. }
  rewrite Hnm. cbn [for_each fst snd]. unfold bind at 1.
  assert (Hin : for_each (names_of replace_names)
                  (replace_module alloc rank sc d "" (model w)) w
                = ({| model := model w; next_ident := S (next_ident w) |},
                   Raise AttributeError)).
  { induction (names_of replace_names) as [|r names IH];
      cbn [for_each existsb] in *; [discriminate|].
    unfold bind. destruct (contains r "") eqn:Ec; cbn [orb] in Hex.
    - now rewrite (replace_module_orphan sc d "" r (model w) w Hr Hb Ec Hq Hi Hp).
    - rewrite replace_module_skip by now right. now apply IH. }
  now rewrite Hin.
Qed.



Lemma for_each_app {S A : Type} (xs ys : list A) (f : A -> M S unit) (s : S) :
  for_each (xs ++ ys) f s
  = match for_each xs f s with
    | (s', Ok _) => for_each ys f s'
    | (s', Raise e) => (s', Raise e)
    end.
Proof.
  revert s. induction xs as [|x xs IH]; intros s; cbn.
  - reflexivity.
  - unfold bind. destruct (f x s) as [s' [[]|e]]; [apply IH | reflexivity].
Qed.

(** X24. When the first module that matches is a quantized base layer,
    [switch_to_lora] raises [RuntimeError] (the constructor call of line
    141 raises at line 36) and the graph is as it was. *)
Theorem switch_to_lora_quantized_raises (replace_names : option (list string))
        (rank : Z) (sc : T) (d : bool) (w : World T)
        (before after : list (string * NNModule T)) (nm : string * NNModule T)
        (names1 names2 : list string) (r : string) (b : Linear T) :
  rank <> 0%Z ->
  named_modules "" (model w) = before ++ nm :: after ->
  (forall x, In x before -> matches (names_of replace_names) x = false) ->
  names_of replace_names = names1 ++ r :: names2 ->
  (forall r', In r' names1 -> contains r' (fst nm) = false) ->
  contains r (fst nm) = true ->
  as_Linear (snd nm) = Some b -> quant b = true ->
  switch_to_lora alloc replace_names rank sc d w = (w, Raise RuntimeError).
Proof.
  intros Hr Hnm Hbefore Hnames Hfirst Hc Hb Hq.
  unfold switch_to_lora. fold (names_of replace_names). rewrite Hnm.
  rewrite for_each_app.
  rewrite for_each_skip.
  2:{ intros x Hx. apply for_each_skip. intros r' Hr'.
      apply replace_module_skip. now apply (matches_false _ _ (Hbefore x Hx)). }
  cbn [for_each]. unfold bind at 1. rewrite Hnames, for_each_app.
  rewrite for_each_skip
    by (intros r' Hr'; apply replace_module_skip; right; now apply Hfirst).
  cbn [for_each]. unfold bind at 1.
  now rewrite (replace_module_quantized_raises sc d (fst nm) r (snd nm) w Hr Hb Hc Hq).
Qed.
End RewriteFacts.

(** ** The further properties at the example layers and graphs *)

Section Witnesses.
Import Examples.
Open Scope Z_scope.

Lemma Z_mul_zero_l (a : Z) : tmul tzero a = tzero.
Proof. reflexivity. Qed.

Lemma Z_add_zero_r (a : Z) : tadd a tzero = a.
Proof. apply Z.add_0_r. Qed.

(** X1, at [fresh_layer]. *)
Lemma init_shapes_witness :
  well_shaped fresh_layer /\ in_features fresh_layer = 2%nat.
Proof.
  assert (Hl : LinearWithLoRA_init 2 1 1 32 false false three_four = Ok fresh_layer)
    by reflexivity.
  destruct (init_shapes _ _ _ _ _ _ _ Hl) as (Hw & Hi & _).
  exact (conj Hw Hi).
Defined.

(** X3, at the quantized layer. *)
Lemma forward_keeps_layer_witness :
  fst (forward [[1; 1]] quant_layer) = quant_layer.
Proof.
  apply (@forward_keeps_layer Z _ quant_layer [[1; 1]]).
  right. split; [reflexivity | discriminate].
Defined.

(** X4, at the plain layer: three calls. *)
Lemma forward_accumulates_witness :
  Nat.iter 3 (fun s => fst (forward [[5]] s)) plain_layer = set_weight [[4]] plain_layer.
Proof.
  exact (@forward_accumulates Z _ plain_layer [[5]] [[1]] [[1]] 3
           eq_refl eq_refl eq_refl (or_introl eq_refl)).
Defined.

(** X5, at the merged layer. *)
Lemma forward_plain_without_adapter_witness :
  forward [[1; 1]] merged_layer = (merged_layer, Ok [[7]]).
Proof.
  exact (@forward_plain_without_adapter Z _ merged_layer [[1; 1]] (or_introl eq_refl)).
Defined.

(** X6, at the plain layer. *)
Lemma forward_shape_witness :
  well_shaped (set_weight [[2]] plain_layer)
  /\ List.length [[10]] = List.length [[5]]
  /\ Forall (fun r => List.length r = out_features plain_layer) [[10]].
Proof.
  apply (@forward_shape Z _ plain_layer (set_weight [[2]] plain_layer) [[5]] [[10]]);
    [repeat split | reflexivity].
Defined.

(** X7, at [fresh_layer]. *)
Lemma forward_fresh_additive_witness :
  forward [[1; 1]] fresh_layer = (fresh_layer, Ok [[7]]).
Proof.
  apply (@forward_fresh_additive Z _ Z_mul_zero_l Z_add_zero_r 2 1 1 32 false
           three_four fresh_layer [[1; 1]]); [lia | reflexivity].
Defined.

(** X9, at the plain layer. *)
Lemma enable_dora_forward_witness :
  (enable_dora ;; forward [[1]]) plain_layer = (set_dora true plain_layer, Ok [[1]]).
Proof.
  exact (@enable_dora_forward Z _ plain_layer [[1]] [[1]] [[1]] eq_refl eq_refl).
Defined.

(** X10, at the plain layer with adapter scalers set by hand. *)
Lemma merge_lora_returns_witness :
  lora_rank (fst (merge_lora scaled_layer)) = 0
  /\ weight_a (fst (merge_lora scaled_layer)) = None
  /\ weight_b (fst (merge_lora scaled_layer)) = None
  /\ weight_a_scaler (fst (merge_lora scaled_layer)) = None
  /\ weight_b_scaler (fst (merge_lora scaled_layer)) = None
  /\ exists a b, weight_a scaled_layer = Some a /\ weight_b scaled_layer = Some b
                 /\ weight_a_scaler scaled_layer <> None
                 /\ weight_b_scaler scaled_layer <> None
                 /\ weight (fst (merge_lora scaled_layer))
                    = compose scaled_layer (weight scaled_layer)
                        (matmul (effective scaled_layer b (weight_b_scaler scaled_layer))
                                (effective scaled_layer a (weight_a_scaler scaled_layer))).
Proof.
  exact (@merge_lora_returns Z _ scaled_layer (fst (merge_lora scaled_layer))
           eq_refl eq_refl).
Defined.

(** X11, at the plain layer. *)
Lemma merge_lora_unquantized_raises_witness :
  exists l', merge_lora plain_layer = (l', Raise AttributeError)
             /\ lora_rank l' = lora_rank plain_layer
             /\ weight_a l' = None /\ weight_b l' = None.
Proof.
  exact (@merge_lora_unquantized_raises Z _ plain_layer [[1]] [[1]]
           eq_refl eq_refl eq_refl eq_refl).
Defined.

(** X12, at the layer a raised merge left. *)
Lemma merge_lora_without_factor_raises_witness :
  merge_lora half_merged_layer = (half_merged_layer, Raise AttributeError).
Proof.
  exact (@merge_lora_without_factor_raises Z _ half_merged_layer
           eq_refl (or_introl eq_refl)).
Defined.

(** X13, at the plain layer with adapter scalers set by hand. *)
Lemma merge_lora_twice_witness :
  merge_lora (fst (merge_lora scaled_layer)) = (fst (merge_lora scaled_layer), Ok tt).
Proof.
  exact (@merge_lora_twice Z _ scaled_layer (fst (merge_lora scaled_layer)) eq_refl).
Defined.

(** X14, at the plain layer. *)
Lemma merge_lora_keeps_output_witness :
  snd (forward [[1]] (fst (merge_lora plain_layer))) = snd (forward [[1]] plain_layer).
Proof.
  exact (@merge_lora_keeps_output Z _ plain_layer [[1]] [[1]] [[1]]
           eq_refl eq_refl eq_refl (or_introl eq_refl)).
Defined.

(** X15, at the quantized layer. *)
Lemma merge_lora_shape_witness : well_shaped (fst (merge_lora quant_layer)).
Proof.
  apply (@merge_lora_shape Z _ quant_layer). repeat split.
Defined.

(** X16, in the host model. *)
Lemma get_parent_model_sound_witness :
  exists s, InTree s (model host) /\ ident_of s = 1%nat /\ has_child s 2.
Proof.
  apply get_parent_model_sound. reflexivity.
Defined.

(** X17, in the host model. *)
Lemma get_parent_model_complete_witness :
  get_parent_model (model host) 2 <> None.
Proof.
  apply (get_parent_model_complete (s := attn_node)).
  - eapply InTree_child; [left; reflexivity | constructor].
  - exists "qkv_proj"%string, qkv_node. split; [left; reflexivity | reflexivity].
Defined.

(** X18, in the host model. *)
Lemma get_parent_model_of_named_witness :
  exists p, get_parent_model (model host) 2 = Some p.
Proof.
  apply (get_parent_model_of_named (model host) ""%string
           ("attn.qkv_proj"%string, qkv_node)).
  right. left. reflexivity.
Defined.

(** X19, in the host model with a name no module has. *)
Lemma switch_to_lora_no_match_witness :
  switch_to_lora alloc (Some ["mlp"%string]) 4 32 false host = (host, Ok tt).
Proof.
  apply (@switch_to_lora_no_match Z _ alloc (Some ["mlp"%string]) 4 32 false host).
  intros nm [<- | [<- | [<- | [<- | []]]]]; reflexivity.
Defined.

(** X22, at a model that is a single base layer. *)
Lemma switch_to_lora_root_linear_witness :
  switch_to_lora alloc (Some [""%string]) 1 32 false lone_linear
  = ({| model := model lone_linear; next_ident := 2 |}, Raise AttributeError).
Proof.
  apply (@switch_to_lora_root_linear Z _ alloc (Some [""%string]) 1 32 false
           lone_linear o_proj); try reflexivity; try lia; try discriminate.
Defined.


(** X24, in the host model with a quantized [qkv_proj]. *)
Lemma switch_to_lora_quantized_raises_witness :
  switch_to_lora alloc None 1 32 false quant_host = (quant_host, Raise RuntimeError).
Proof.
  exact (@switch_to_lora_quantized_raises Z _ alloc None 1 32 false quant_host
           [(""%string, model quant_host);
            ("attn"%string,
             Node 1 KOther [("qkv_proj"%string, Node 2 (KLinear quant_qkv) []);
                            ("o_proj"%string, Node 3 (KLinear o_proj) [])])]
           [("attn.o_proj"%string, Node 3 (KLinear o_proj) [])]
           ("attn.qkv_proj"%string, Node 2 (KLinear quant_qkv) [])
           [] [] "qkv_proj"%string quant_qkv
           ltac:(discriminate) eq_refl
           ltac:(intros x [<- | [<- | []]]; reflexivity)
           eq_refl ltac:(intros r' []) eq_refl eq_refl eq_refl).
Defined.
End Witnesses.

Section RealWitnesses.
Import Examples.
Open Scope R_scope.

(** X8, at [fresh_real_layer]. *)
Lemma forward_fresh_dora_witness :
  forward [[1; 1]] fresh_real_layer
  = (fresh_real_layer, Ok (Linear_forward fresh_real_layer [[1; 1]])).
Proof.
  apply (@forward_fresh_dora 2 1 1 2 real_storage fresh_real_layer [[1; 1]]);
    [lia | reflexivity |].
  constructor; [|constructor].
  exists 3. split; [left; reflexivity | cbn; lra].
Defined.
End RealWitnesses.
